(** * scriptable-util: status-tagged results and safe file access

    A shallow embedding of [src/FileManager.ts]: the classes
    [DataResponse], [CustomFileManager] and [NewFileManager].

    - [DataResponse] objects live in a heap of the [World]; a constructor
      call allocates a fresh object and returns its reference, so that
      "derived" results can be compared with the object they derive from.
    - Scriptable's [FileManager] (the [this.fm] field of both managers) and
      the runtime's [JSON] object are not part of the repository; they are
      interfaces ([FileManagerAPI], [JSRuntime]) that the managers take as
      parameters.  [MemFM] and [MiniJSON] are small executable instances,
      used to run the code on concrete inputs.
    - A method body is a computation in the monad [M]: it threads the
      [World] (backend state, heap, log of backend calls, console) and
      either returns or throws.  An [async] method is such a computation as
      well: a rejected promise is a thrown exception at the [await]ing
      caller.
    - [CustomData] of [dist/CustomData.js] is embedded as well.  The
      records it takes the maximum over hold numbers of any kind
      ([JSNumber]: [NaN], the infinities, fractions); how many arguments
      a call can pass is the [Engine]'s to say. *)

From Stdlib Require Import String Ascii List ZArith Bool Lia DecimalString
  Qcanon.
From stdpp Require Import gmap strings list.

Local Open Scope string_scope.
Local Open Scope list_scope.
Set Warnings "-register-all".

(** ** JavaScript values *)

(** The values that flow through the managers: what [JSON.parse] produces,
    plus [undefined] and Scriptable's opaque [Data] and [Image] objects.
    Numbers are the integral ones; objects keep their keys in insertion
    order, as [JSON.stringify] observes it. *)
Inductive JSValue : Type :=
  | VUndefined
  | VNull
  | VBool (b : bool)
  | VNum (n : Z)
  | VStr (s : string)
  | VArr (items : list JSValue)
  | VObj (fields : list (string * JSValue))
  | VData (raw : string)
  | VImage (raw : string).

(** [typeof v] *)
Definition typeof (v : JSValue) : string :=
  match v with
  | VUndefined => "undefined"
  | VBool _ => "boolean"
  | VNum _ => "number"
  | VStr _ => "string"
  | VNull | VArr _ | VObj _ | VData _ | VImage _ => "object"
  end.

(** [Array.isArray(v)] *)
Definition isArray (v : JSValue) : bool :=
  match v with VArr _ => true | _ => false end.

(** [v === null] *)
Definition isNull (v : JSValue) : bool :=
  match v with VNull => true | _ => false end.

(** [v == null]: true of [null] and of [undefined]. *)
Definition looselyNull (v : JSValue) : bool :=
  match v with VNull | VUndefined => true | _ => false end.

(** [s.endsWith(suffix)] *)
Fixpoint endsWith (s suffix : string) : bool :=
  (s =? suffix)%string ||
  match s with
  | EmptyString => false
  | String _ rest => endsWith rest suffix
  end.

(** An exception object: its [name] and its [message]. *)
Record Exn : Type := JsError { exn_name : string; exn_message : string }.

Inductive Outcome (A : Type) : Type :=
  | Returned (a : A)
  | Thrown (e : Exn).
Arguments Returned {A} a.
Arguments Thrown {A} e.

(** ** [DataResponse]: the data *)

Inductive DataStatus : Type :=
  | OK | OFFLINE | CACHED | ERROR | NOT_FOUND | API_ERROR.

(** An instance of [class DataResponse<T>].  [msg = None] is an object
    without the optional [msg] property. *)
Record DataResponse : Type := mkDataResponse {
  data : JSValue;
  status : DataStatus;
  msg : option string
}.

(** A reference to an allocated [DataResponse]. *)
Definition Ref : Type := nat.

(** ** The world a method runs in *)

(** Calls made on the backend [this.fm], in program order. *)
Inductive Call : Type :=
  | CallFileExists (path : string)
  | CallIsFileStoredIniCloud (path : string)
  | CallIsFileDownloaded (path : string)
  | CallDownloadFileFromiCloud (path : string)
  | CallRead (path : string)
  | CallReadString (path : string)
  | CallReadImage (path : string)
  | CallWriteString (path : string) (content : string).

Definition call_path (c : Call) : string :=
  match c with
  | CallFileExists p | CallIsFileStoredIniCloud p | CallIsFileDownloaded p
  | CallDownloadFileFromiCloud p | CallRead p | CallReadString p
  | CallReadImage p | CallWriteString p _ => p
  end.

(** Lines written to the console. *)
Inductive LogEntry : Type :=
  | LogWarn (text : string)
  | LogError (e : Exn).

Record World (D : Type) : Type := mkWorld {
  disk : D;
  heap : list DataResponse;
  calls : list Call;
  console : list LogEntry
}.
Arguments mkWorld {D} disk heap calls console.
Arguments disk {D} w.
Arguments heap {D} w.
Arguments calls {D} w.
Arguments console {D} w.

Definition M (D A : Type) : Type := World D -> Outcome A * World D.

Definition ret {D A : Type} (a : A) : M D A := fun w => (Returned a, w).

Definition bind {D A B : Type} (m : M D A) (k : A -> M D B) : M D B :=
  fun w =>
    match m w with
    | (Returned a, w') => k a w'
    | (Thrown e, w') => (Thrown e, w')
    end.

Definition throw {D A : Type} (e : Exn) : M D A := fun w => (Thrown e, w).

(** [try { body } catch (e) { handler }]: what [body] did to the world before
    it threw stays done. *)
Definition try_catch {D A : Type} (body : M D A) (handler : Exn -> M D A)
  : M D A :=
  fun w =>
    match body w with
    | (Returned a, w') => (Returned a, w')
    | (Thrown e, w') => handler e w'
    end.

(** The value of a pure expression that may throw. *)
Definition lift {D A : Type} (o : Outcome A) : M D A := fun w => (o, w).

Declare Scope js_scope.
Delimit Scope js_scope with js.
Notation "'let*' x ':=' m 'in' k" :=
  (bind m (fun x => k))
  (at level 10, x name, m at level 100, k at level 200) : js_scope.
Notation "m ';;' k" :=
  (bind m (fun _ => k))
  (at level 100, k at level 200, right associativity) : js_scope.
Local Open Scope js_scope.

Definition console_warn {D : Type} (text : string) : M D unit :=
  fun w => (Returned tt,
            mkWorld (disk w) (heap w) (calls w) (console w ++ [LogWarn text])).

Definition console_error {D : Type} (e : Exn) : M D unit :=
  fun w => (Returned tt,
            mkWorld (disk w) (heap w) (calls w) (console w ++ [LogError e])).

(** [new] places the object after the ones already allocated. *)
Definition alloc {D : Type} (obj : DataResponse) : M D Ref :=
  fun w => (Returned (List.length (heap w)),
            mkWorld (disk w) (heap w ++ [obj]) (calls w) (console w)).

(** Reading the fields of [resp]; a reference to nothing is a [TypeError]. *)
Definition load {D : Type} (resp : Ref) : M D DataResponse :=
  fun w =>
    match heap w !! resp with
    | Some obj => (Returned obj, w)
    | None =>
        (Thrown (JsError "TypeError" "Cannot read properties of undefined"), w)
    end.

(** ** [DataResponse]: the class *)

(** The argument of [cached]: an instance of [DataResponse], or any other
    value.  The constructors are the two answers of
    [data instanceof DataResponse]. *)
Inductive Cacheable : Type :=
  | Instance (resp : Ref)
  | Plain (value : JSValue).

Module DataResponse.
Section Methods.
Context {D : Type}.

(** [if (msg)]: an omitted message and the empty string are both falsy. *)
Definition truthy (msg : option string) : bool :=
  match msg with
  | Some EmptyString => false
  | Some (String _ _) => true
  | None => false
  end.

(** [constructor(data, status = DataStatus.OK, msg?)] *)
Definition new (data : JSValue) (status : option DataStatus)
    (msg : option string) : M D Ref :=
  alloc {| data := data;
           status := default OK status;
           msg := if truthy msg then msg else None |}.

Definition fromDataResponse (resp : Ref) (status : DataStatus) : M D Ref :=
  let* r := load resp in
  new (data r) (Some status) (msg r).

(** [empty(status = DataStatus.OK, msg?)] *)
Definition empty (status : option DataStatus) (msg : option string)
  : M D Ref :=
  (if truthy msg then console_warn (default EmptyString msg) else ret tt);;
  new VNull (Some (default OK status)) msg.

Definition notFound (msg : option string) : M D Ref :=
  empty (Some NOT_FOUND) msg.

Definition error (msg : option string) : M D Ref :=
  empty (Some ERROR) msg.

Definition apiError (msg : option string) : M D Ref :=
  empty (Some API_ERROR) msg.

Definition ok (data : JSValue) (msg : option string) : M D Ref :=
  new data (Some OK) msg.

Definition cached (data : Cacheable) : M D Ref :=
  match data with
  | Instance resp => fromDataResponse resp CACHED
  | Plain value => new value (Some CACHED) None
  end.



(** [resp.data == null] *)
Definition isEmpty (resp : DataResponse) : bool :=
  looselyNull (data resp).
End Methods.
End DataResponse.

(** ** The collaborators outside the repository *)

(** Scriptable's [FileManager], as far as the managers use it.  [D] is the
    state of the device's and iCloud's file system.  The three queries only
    look at the state, the readers either return or throw, and the two
    actions may change the state and may throw. *)
Record FileManagerAPI (D : Type) : Type := {
  fm_joinPath : string -> string -> string;
  fm_fileExists : D -> string -> bool;
  fm_isFileStoredIniCloud : D -> string -> bool;
  fm_isFileDownloaded : D -> string -> bool;
  fm_downloadFileFromiCloud : string -> D -> Outcome unit * D;
  fm_read : D -> string -> Outcome JSValue;
  fm_readString : D -> string -> Outcome string;
  fm_readImage : D -> string -> Outcome JSValue;
  fm_writeString : string -> string -> D -> Outcome unit * D
}.
Arguments fm_joinPath {D} _ _ _.
Arguments fm_fileExists {D} _ _ _.
Arguments fm_isFileStoredIniCloud {D} _ _ _.
Arguments fm_isFileDownloaded {D} _ _ _.
Arguments fm_downloadFileFromiCloud {D} _ _ _.
Arguments fm_read {D} _ _ _.
Arguments fm_readString {D} _ _ _.
Arguments fm_readImage {D} _ _ _.
Arguments fm_writeString {D} _ _ _ _.

(** The runtime's [JSON] object.  [JSON.parse] throws on malformed text. *)
Record JSRuntime : Type := {
  JSON_parse : string -> Outcome JSValue;
  JSON_stringify : JSValue -> string
}.

(** A backend call, entered in the log of calls. *)
Definition logged {D : Type} (c : Call) (w : World D) : World D :=
  mkWorld (disk w) (heap w) (calls w ++ [c]) (console w).

Definition query {D A : Type} (c : Call) (f : D -> A) : M D A :=
  fun w => (Returned (f (disk w)), logged c w).

Definition reader {D A : Type} (c : Call) (f : D -> Outcome A) : M D A :=
  fun w => (f (disk w), logged c w).

Definition action {D : Type} (c : Call) (f : D -> Outcome unit * D)
  : M D unit :=
  fun w =>
    let (o, d') := f (disk w) in
    (o, mkWorld d' (heap w) (calls w ++ [c]) (console w)).

Section Backend.
Context {D : Type} (fm : FileManagerAPI D).

Definition fileExists (path : string) : M D bool :=
  query (CallFileExists path) (fun d => fm_fileExists fm d path).

Definition isFileStoredIniCloud (path : string) : M D bool :=
  query (CallIsFileStoredIniCloud path)
        (fun d => fm_isFileStoredIniCloud fm d path).

Definition isFileDownloaded (path : string) : M D bool :=
  query (CallIsFileDownloaded path) (fun d => fm_isFileDownloaded fm d path).

Definition downloadFileFromiCloud (path : string) : M D unit :=
  action (CallDownloadFileFromiCloud path) (fm_downloadFileFromiCloud fm path).

Definition read (path : string) : M D JSValue :=
  reader (CallRead path) (fun d => fm_read fm d path).

Definition readString (path : string) : M D string :=
  reader (CallReadString path) (fun d => fm_readString fm d path).

Definition readImage (path : string) : M D JSValue :=
  reader (CallReadImage path) (fun d => fm_readImage fm d path).

Definition writeString (path content : string) : M D unit :=
  action (CallWriteString path content) (fm_writeString fm path content).

(** [a() && !b()]: [b] is called only when [a()] is true. *)
Definition and_not (a b : M D bool) : M D bool :=
  let* x := a in
  if x then (let* y := b in ret (negb y)) else ret false.
End Backend.

(** A file manager object as [FileManager.iCloud()] and
    [FileManager.local()] return it: the calls above, and the three more
    that the constructors make.  [documentsDirectory()] does not depend on
    the files; on the iCloud object it throws when iCloud is not set up. *)
Record FileManagerObject (D : Type) : Type := {
  fm_api : FileManagerAPI D;
  fm_documentsDirectory : Outcome string;
  fm_isDirectory : D -> string -> bool;
  fm_createDirectory : string -> D -> Outcome unit * D
}.
Arguments fm_api {D} _.
Arguments fm_documentsDirectory {D} _.
Arguments fm_isDirectory {D} _ _ _.
Arguments fm_createDirectory {D} _ _ _.

(** The two static methods of Scriptable's [FileManager]. *)
Record Scriptable (D : Type) : Type := {
  FileManager_iCloud : Outcome (FileManagerObject D);
  FileManager_local : FileManagerObject D
}.
Arguments FileManager_iCloud {D} _.
Arguments FileManager_local {D} _.

(** [console.warn(e)] prints the exception as [name: message]. *)
Definition exn_text (e : Exn) : string :=
  exn_name e +:+ ": " +:+ exn_message e.

(** The constructors' calls on the backend.  [Call] lists the calls of the
    readers and writers; these two are made without an entry in the log. *)
Definition isDirectory {D : Type} (fm : FileManagerObject D) (path : string)
  : M D bool :=
  fun w => (Returned (fm_isDirectory fm (disk w) path), w).

Definition createDirectory {D : Type} (fm : FileManagerObject D)
    (path : string) : M D unit :=
  fun w =>
    let (o, d') := fm_createDirectory fm path (disk w) in
    (o, mkWorld d' (heap w) (calls w) (console w)).

(** The [try]/[catch] at the head of both constructors: the iCloud object
    when it can be had and knows its documents directory, the local one
    otherwise. *)
Definition chooseFileManager {D : Type} (env : Scriptable D)
  : M D (FileManagerObject D) :=
  try_catch
    (let* fm := lift (FileManager_iCloud env) in
     lift (fm_documentsDirectory fm);;
     ret fm)
    (fun e => console_warn (exn_text e);; ret (FileManager_local env)).

(** ** [CustomFileManager] *)

Inductive FileType : Type :=
  | TEXT | JSON | JSON_DICT | OTHER | LOG.

(** [data: Record<string, unknown> | string] *)
Inductive Payload : Type :=
  | PString (s : string)
  | PRecord (fields : list (string * JSValue)).

Definition payload_value (p : Payload) : JSValue :=
  match p with
  | PString s => VStr s
  | PRecord fields => VObj fields
  end.

(** [data] where the type checker has narrowed it to [string].  On a record
    the guard before it has already taken the other branch. *)
Definition payload_string (p : Payload) : string :=
  match p with
  | PString s => s
  | PRecord _ => "[object Object]"
  end.

(** The fields of an instance. *)
Record CustomFileManager : Type := {
  basedir : string;
  basepath : string;
  scriptableDir : string;
  filestub : string
}.

(** [a === b] on kinds. *)
Definition same_kind (a b : FileType) : bool :=
  match a, b with
  | TEXT, TEXT | JSON, JSON | JSON_DICT, JSON_DICT | OTHER, OTHER
  | LOG, LOG => true
  | _, _ => false
  end.

Module CustomFileManager.

(** [static extensionByType(type, omitDot = false)] *)
Definition extensionByType (type : FileType) (omitDot : option bool)
  : string :=
  let dot := if default false omitDot then EmptyString else "." in
  match type with
  | TEXT => dot +:+ "txt"
  | JSON_DICT | JSON => dot +:+ "json"
  | LOG => dot +:+ "log"
  | OTHER => EmptyString
  end.

(** [static typeByExtension(extension)] *)
Definition typeByExtension (extension : string) : Outcome FileType :=
  if (extension =? "txt")%string then Returned TEXT
  else if (extension =? "json")%string then Returned JSON
  else if (extension =? "log")%string then Returned LOG
  else Thrown (JsError "Error" ("Unknown extension " +:+ extension +:+ ".")).

(** [constructor(basedir, filestub)]: the instance, and the file manager
    object it keeps in [this.fm]. *)
Definition constructor {D : Type} (env : Scriptable D)
    (basedir filestub : string)
  : M D (FileManagerObject D * CustomFileManager) :=
  let* fm := chooseFileManager env in
  let* scriptableDir := lift (fm_documentsDirectory fm) in
  let* documents := lift (fm_documentsDirectory fm) in
  let basepath := fm_joinPath (fm_api fm) documents basedir in
  let* isDir := isDirectory fm basepath in
  (if negb isDir then createDirectory fm basepath else ret tt);;
  ret (fm, {| basedir := basedir; basepath := basepath;
              scriptableDir := scriptableDir; filestub := filestub |}).

Section Methods.
Context {D : Type} (fm : FileManagerAPI D) (js : JSRuntime)
        (this : CustomFileManager).

Definition getAbsolutePath (relFilePath : string) (configDir : bool)
  : string :=
  fm_joinPath fm (if configDir then basepath this else scriptableDir this)
              relFilePath.

(** [async read(file, type = FileType.TEXT, configDir = true)] *)
Definition read (file : string) (type' : option FileType)
    (configDir' : option bool) : M D Ref :=
  let type := default TEXT type' in
  let configDir := default true configDir' in
  let ext := extensionByType type None in
  let path :=
    getAbsolutePath (if endsWith file ext then file else file +:+ ext)
                    configDir in
  let* pending :=
    and_not (isFileStoredIniCloud fm path) (isFileDownloaded fm path) in
  (if pending then downloadFileFromiCloud fm path else ret tt);;
  let* present := fileExists fm path in
  if present then
    try_catch
      (let* resStr := readString fm path in
       if same_kind type JSON then
         let* parsed := lift (JSON_parse js resStr) in
         DataResponse.new parsed None None
       else if same_kind type JSON_DICT then
         let* dict := lift (JSON_parse js resStr) in
         if negb (typeof dict =? "object")%string
            || isArray dict || isNull dict
         then
           console_warn "read: parsed data not a dictionary.";;
           DataResponse.error None
         else DataResponse.new dict None None
       else DataResponse.new (VStr resStr) None None)
      (fun e => console_error e;; DataResponse.error None)
  else
    console_warn ("File " +:+ path +:+ " does not exist.");;
    DataResponse.notFound None.

(** [write(data, file = this.filestub, type = FileType.TEXT,
    configDir = true)] *)
Definition write (data : Payload) (file' : option string)
    (type' : option FileType) (configDir' : option bool) : M D unit :=
  let file := default (filestub this) file' in
  let type := default TEXT type' in
  let configDir := default true configDir' in
  let dataStr :=
    if same_kind type JSON || same_kind type JSON_DICT
       || (typeof (payload_value data) =? "object")%string
    then JSON_stringify js (payload_value data)
    else if same_kind type TEXT then payload_string data
    else payload_string data in
  let ext := extensionByType type None in
  let path :=
    getAbsolutePath (if endsWith file ext then file else file +:+ ext)
                    configDir in
  writeString fm path dataStr.
End Methods.
End CustomFileManager.

(** ** [NewFileManager] *)

(** The fields of an instance ([fm] is the section's backend). *)
Record NewFileManager : Type := {
  nfm_basepath : string;
  nfm_filestub : option string
}.

(** [res != null] where [res] is the promise an [async] method returned:
    a promise is an object, never [null] or [undefined]. *)
Definition promise_is_null {D A : Type} (res : M D A) : bool := false.

Module NewFileManager.
Section Methods.
Context {D : Type} (fm : FileManagerAPI D) (js : JSRuntime)
        (this : NewFileManager).

Definition joinPath (lhsPath rhsPath : string) : string :=
  fm_joinPath fm lhsPath rhsPath.

Definition mapPath (filePath : string) : string :=
  joinPath (nfm_basepath this) filePath.

Definition fileExists (filePath : string) : M D bool :=
  fileExists fm (mapPath filePath).

Definition isFileStoredIniCloud (filePath : string) : M D bool :=
  isFileStoredIniCloud fm (mapPath filePath).

Definition isFileDownloaded (filePath : string) : M D bool :=
  isFileDownloaded fm (mapPath filePath).

Definition downloadFileFromiCloud (filePath : string) : M D unit :=
  downloadFileFromiCloud fm (mapPath filePath).

(** [protected async readSmartWrapper<T>(filePath, fn)] *)
Definition readSmartWrapper (filePath : string) (fn : string -> M D JSValue)
  : M D Ref :=
  let* present := fileExists filePath in
  if negb present then
    console_warn
      ("readSmartWrapper: File '" +:+ filePath +:+ "' does not exist.");;
    DataResponse.notFound None
  else
    let* pending :=
      and_not (isFileStoredIniCloud filePath) (isFileDownloaded filePath) in
    (if pending then downloadFileFromiCloud filePath else ret tt);;
    let* res := fn filePath in
    DataResponse.ok res None.

Definition read (filePath : string) : M D JSValue :=
  read fm (mapPath filePath).

Definition readS (filePath : string) : M D Ref :=
  let fn := fun path => read path in
  readSmartWrapper filePath fn.

Definition readString (filePath : string) : M D string :=
  readString fm (mapPath filePath).

Definition readStringS (filePath : string) : M D Ref :=
  let fn := fun path => let* s := readString path in ret (VStr s) in
  readSmartWrapper filePath fn.

(** [readJSON(filePath, autoExtension = true)] *)
Definition readJSON (filePath : string) (autoExtension : option bool)
  : M D JSValue :=
  let path :=
    if default true autoExtension && negb (endsWith filePath ".json")
    then filePath +:+ ".json" else filePath in
  let* data := readString path in
  lift (JSON_parse js data).

(** [async readJSONS(filePath, autoExtension = true)] *)
Definition readJSONS (filePath : string) (autoExtension : option bool)
  : M D Ref :=
  let fn := fun path => readJSON path (Some false) in
  let path :=
    if default true autoExtension && negb (endsWith filePath ".json")
    then filePath +:+ ".json" else filePath in
  readSmartWrapper path fn.

(** [readJSONDict(filePath, autoExtension = true)] *)
Definition readJSONDict (filePath : string) (autoExtension : option bool)
  : M D JSValue :=
  let* data := readJSON filePath autoExtension in
  if negb (typeof data =? "object")%string || isArray data || isNull data
  then
    console_warn
      ("readJSONDict: data not a dictionary.(" +:+ typeof data +:+ ")");;
    ret VNull
  else ret data.

(** [async readJSONDictS(filePath, autoExtension = true)] *)
Definition readJSONDictS (filePath : string) (autoExtension : option bool)
  : M D Ref :=
  let fn := fun path => readJSONDict path (Some false) in
  let path :=
    if default true autoExtension && negb (endsWith filePath ".json")
    then filePath +:+ ".json" else filePath in
  let res := readSmartWrapper path fn in
  if negb (promise_is_null res) then res else DataResponse.empty None None.

Definition readImage (filePath : string) : M D JSValue :=
  readImage fm (mapPath filePath).

Definition readImageS (filePath : string) : M D Ref :=
  let fn := fun path => readImage path in
  readSmartWrapper filePath fn.

Definition writeString (filePath content : string) : M D unit :=
  writeString fm (mapPath filePath) content.

Definition writeJSON (filePath : string) (content : list (string * JSValue))
  : M D unit :=
  let ext := ".json" in
  let dataStr := JSON_stringify js (VObj content) in
  let path := if endsWith filePath ext then filePath else filePath +:+ ext in
  writeString path dataStr.
End Methods.

(** [constructor(basedir?, filestub?)] *)
Definition constructor {D : Type} (env : Scriptable D)
    (basedir filestub : option string)
  : M D (FileManagerObject D * NewFileManager) :=
  let* fm := chooseFileManager env in
  if negb (DataResponse.truthy basedir) then
    let* documents := lift (fm_documentsDirectory fm) in
    ret (fm, {| nfm_basepath := documents; nfm_filestub := filestub |})
  else
    let* documents := lift (fm_documentsDirectory fm) in
    let basepath :=
      fm_joinPath (fm_api fm) documents (default EmptyString basedir) in
    let* isDir := isDirectory fm basepath in
    (if negb isDir then createDirectory fm basepath else ret tt);;
    ret (fm, {| nfm_basepath := basepath; nfm_filestub := filestub |}).
End NewFileManager.

(** ** [CustomData] *)

(** A number: [NaN], an infinity, or a finite number, which may be a
    fraction.  The sign of zero is not told apart. *)
Inductive JSNumber : Type :=
  | NaN
  | NegInfinity
  | PosInfinity
  | Finite (q : Qc).

(** [x > y] on numbers: false when one of them is [NaN]. *)
Definition greater (x y : JSNumber) : bool :=
  match x, y with
  | NaN, _ | _, NaN => false
  | NegInfinity, _ => false
  | _, PosInfinity => false
  | PosInfinity, _ => true
  | Finite _, NegInfinity => true
  | Finite p, Finite q => bool_decide (q < p)%Qc
  end.

(** [Math.max(x1, ..., xn)]: the highest is [-Infinity] to begin with; an
    argument that is [NaN] makes the result [NaN], and an argument greater
    than the highest becomes the highest. *)
Definition Math_max (xs : list JSNumber) : JSNumber :=
  fold_left
    (fun highest x =>
       match highest, x with
       | NaN, _ | _, NaN => NaN
       | _, _ => if greater x highest then x else highest
       end)
    xs NegInfinity.

(** What a JavaScript engine decides for itself: how many arguments one
    call can pass, and what it throws at a call with more. *)
Record Engine : Type := {
  maxArguments : nat;
  tooManyArguments : Exn
}.

(** [f(...xs)] *)
Definition spread {A B : Type} (engine : Engine) (f : list A -> B)
    (xs : list A) : Outcome B :=
  if (length xs <=? maxArguments engine)%nat then Returned (f xs)
  else Thrown (tooManyArguments engine).

(** A value of the type [unknown] in a record that is in memory: a number
    of any kind, or another value. *)
Inductive Unknown : Type :=
  | UNumber (x : JSNumber)
  | UValue (v : JSValue).

(** [typeof x] *)
Definition typeofUnknown (x : Unknown) : string :=
  match x with
  | UNumber _ => "number"
  | UValue v => typeof v
  end.

(** [x] where the type checker has narrowed it to [number]. *)
Definition asNumber (x : Unknown) : JSNumber :=
  match x with
  | UNumber n => n
  | UValue (VNum n) => Finite (Qc_of_Z n)
  | UValue _ => NaN
  end.

(** [value[index]] on a record: the binding of [index] that was made last,
    if there is one. *)
Fixpoint lastBinding {V : Type} (fields : list (string * V)) (index : string)
  : option V :=
  match fields with
  | [] => None
  | (key, x) :: rest =>
      match lastBinding rest index with
      | Some later => Some later
      | None => if (key =? index)%string then Some x else None
      end
  end.

(** [undefined] when there is none. *)
Definition property (fields : list (string * Unknown)) (index : string)
  : Unknown :=
  default (UValue VUndefined) (lastBinding fields index).

(** The fields of an instance.  [cd_fm = None] is an instance without the
    optional [fm]. *)
Record CustomData : Type := {
  cd_id : string;
  cd_meta : list (string * JSValue);
  cd_data : list (list (string * JSValue));
  cd_fm : option CustomFileManager
}.

Module CustomData.

(** [static fromResponse(response)] *)
Definition fromResponse {D : Type} (response : Ref) : M D JSValue :=
  throw (JsError "Error" "'fromResponse' must be implemented.").

(** [typeof x === "number" ? x : 0] *)
Definition numberOrZero (x : Unknown) : JSNumber :=
  if (typeofUnknown x =? "number")%string then asNumber x
  else Finite (Qc_of_Z 0).

(** [static getMaxFromArrayOfObjectsByKey(data, index)] *)
Definition getMaxFromArrayOfObjectsByKey (engine : Engine)
    (data : list (list (string * Unknown))) (index : string)
  : Outcome JSNumber :=
  spread engine Math_max
    (map (fun value => numberOrZero (property value index)) data).

(** [getMaxFromDataObjectByIndex(index)], on the records of the instance. *)
Definition getMaxFromDataObjectByIndex (engine : Engine) (this : CustomData)
    (index : string) : Outcome JSNumber :=
  getMaxFromArrayOfObjectsByKey engine
    (map (map (prod_map id UValue)) (cd_data this)) index.

(** [get storageFileName()]: [(this.fm?.filestub ?? "") + this.id], then
    [.json]. *)
Definition storageFileName (this : CustomData) : string :=
  (match cd_fm this with
   | Some manager => filestub manager
   | None => EmptyString
   end +:+ cd_id this) +:+ ".json".

Section Methods.
Context {D : Type} (fm : FileManagerAPI D) (js : JSRuntime).

(** The abstract method [getStorageObject()], which a subclass supplies. *)
Context (getStorageObject : CustomData -> list (string * JSValue)).

Definition save (this : CustomData) : M D unit :=
  match cd_fm this with
  | None => console_warn "No FileManager registered"
  | Some manager =>
      CustomFileManager.write fm js manager (PRecord (getStorageObject this))
        (Some (storageFileName this)) (Some JSON) None
  end.
End Methods.
End CustomData.

(** ** An executable JSON runtime: [MiniJSON]

    The fragment of JSON with integer numerals and the two-character
    escapes.  [parse] reads one value surrounded by white space; text
    outside the fragment is rejected like malformed text. *)

Module MiniJSON.

(** The double quote. *)
Definition dquote : ascii := ascii_of_nat 34.

Definition is_ws (c : ascii) : bool :=
  let n := nat_of_ascii c in
  (n =? 32)%nat || (n =? 9)%nat || (n =? 10)%nat || (n =? 13)%nat.

Definition digit_of (c : ascii) : option Z :=
  let n := nat_of_ascii c in
  if (48 <=? n)%nat && (n <=? 57)%nat then Some (Z.of_nat (n - 48)) else None.

Fixpoint skip_ws (s : string) : string :=
  match s with
  | String c rest => if is_ws c then skip_ws rest else s
  | EmptyString => s
  end.

(** [strip pre s]: what follows [pre] in [s]. *)
Fixpoint strip (pre s : string) : option string :=
  match pre, s with
  | EmptyString, _ => Some s
  | String a pre', String b s' => if (a =? b)%char then strip pre' s' else None
  | String _ _, EmptyString => None
  end.

(** The digits at the head of [s], read onto [acc]. *)
Fixpoint digits (s : string) (acc : Z) : Z * string :=
  match s with
  | String c rest =>
      match digit_of c with
      | Some d => digits rest (acc * 10 + d)
      | None => (acc, s)
      end
  | EmptyString => (acc, s)
  end.

(** ["0"] or a numeral without leading zero; a fraction or an exponent
    behind it is outside the fragment. *)
Definition natural (s : string) : option (Z * string) :=
  match s with
  | String c rest =>
      match digit_of c with
      | Some d =>
          let '(n, rest') := if (d =? 0)%Z then (0%Z, rest) else digits rest d in
          match rest' with
          | String c' _ =>
              if match digit_of c' with Some _ => true | None => false end
                 || (c' =? ".")%char || (c' =? "e")%char || (c' =? "E")%char
              then None else Some (n, rest')
          | EmptyString => Some (n, rest')
          end
      | None => None
      end
  | EmptyString => None
  end.

Definition number (s : string) : option (Z * string) :=
  match s with
  | String c rest =>
      if (c =? "-")%char
      then match natural rest with
           | Some (n, rest') => Some ((- n)%Z, rest')
           | None => None
           end
      else natural s
  | EmptyString => None
  end.

Definition unescape (c : ascii) : option ascii :=
  if (c =? dquote)%char then Some dquote
  else if (c =? "\")%char then Some "\"%char
  else if (c =? "/")%char then Some "/"%char
  else if (c =? "n")%char then Some (ascii_of_nat 10)
  else if (c =? "t")%char then Some (ascii_of_nat 9)
  else if (c =? "r")%char then Some (ascii_of_nat 13)
  else if (c =? "b")%char then Some (ascii_of_nat 8)
  else if (c =? "f")%char then Some (ascii_of_nat 12)
  else None.

(** The characters of a string literal, after its opening quote. *)
Fixpoint chars (s : string) : option (string * string) :=
  match s with
  | EmptyString => None
  | String c rest =>
      if (c =? dquote)%char then Some (EmptyString, rest)
      else if (c =? "\")%char then
        match rest with
        | String e rest' =>
            match unescape e, chars rest' with
            | Some c', Some (t, after) => Some (String c' t, after)
            | _, _ => None
            end
        | EmptyString => None
        end
      else if (nat_of_ascii c <? 32)%nat then None
      else
        match chars rest with
        | Some (t, after) => Some (String c t, after)
        | None => None
        end
  end.

Fixpoint value (fuel : nat) (s : string) : option (JSValue * string) :=
  match fuel with
  | O => None
  | S fuel' =>
      let s := skip_ws s in
      match strip "null" s, strip "true" s, strip "false" s with
      | Some rest, _, _ => Some (VNull, rest)
      | _, Some rest, _ => Some (VBool true, rest)
      | _, _, Some rest => Some (VBool false, rest)
      | None, None, None =>
          match s with
          | String c rest =>
              if (c =? dquote)%char then
                match chars rest with
                | Some (t, after) => Some (VStr t, after)
                | None => None
                end
              else if (c =? "[")%char then
                match strip "]" (skip_ws rest) with
                | Some after => Some (VArr [], after)
                | None =>
                    match items fuel' rest with
                    | Some (vs, after) => Some (VArr vs, after)
                    | None => None
                    end
                end
              else if (c =? "{")%char then
                match strip "}" (skip_ws rest) with
                | Some after => Some (VObj [], after)
                | None =>
                    match members fuel' rest with
                    | Some (kvs, after) => Some (VObj kvs, after)
                    | None => None
                    end
                end
              else
                match number s with
                | Some (n, after) => Some (VNum n, after)
                | None => None
                end
          | EmptyString => None
          end
      end
  end
with items (fuel : nat) (s : string) : option (list JSValue * string) :=
  match fuel with
  | O => None
  | S fuel' =>
      match value fuel' s with
      | Some (v, rest) =>
          let rest := skip_ws rest in
          match strip "," rest, strip "]" rest with
          | Some more, _ =>
              match items fuel' more with
              | Some (vs, after) => Some (v :: vs, after)
              | None => None
              end
          | None, Some after => Some ([v], after)
          | None, None => None
          end
      | None => None
      end
  end
with members (fuel : nat) (s : string)
  : option (list (string * JSValue) * string) :=
  match fuel with
  | O => None
  | S fuel' =>
      match strip (String dquote EmptyString) (skip_ws s) with
      | Some body =>
          match chars body with
          | Some (key, rest) =>
              match strip ":" (skip_ws rest) with
              | Some rest' =>
                  match value fuel' rest' with
                  | Some (v, rest'') =>
                      let rest'' := skip_ws rest'' in
                      match strip "," rest'', strip "}" rest'' with
                      | Some more, _ =>
                          match members fuel' more with
                          | Some (kvs, after) => Some ((key, v) :: kvs, after)
                          | None => None
                          end
                      | None, Some after => Some ([(key, v)], after)
                      | None, None => None
                      end
                  | None => None
                  end
              | None => None
              end
          | None => None
          end
      | None => None
      end
  end.

Definition syntaxError : Exn :=
  JsError "SyntaxError" "JSON Parse error".

Definition parse (text : string) : Outcome JSValue :=
  match value (2 * String.length text + 2) text with
  | Some (v, rest) =>
      match skip_ws rest with
      | EmptyString => Returned v
      | String _ _ => Thrown syntaxError
      end
  | None => Thrown syntaxError
  end.

Definition escape (c : ascii) : string :=
  if (c =? dquote)%char then String "\" (String dquote EmptyString)
  else if (c =? "\")%char then "\\"
  else if (nat_of_ascii c =? 10)%nat then "\n"
  else if (nat_of_ascii c =? 9)%nat then "\t"
  else if (nat_of_ascii c =? 13)%nat then "\r"
  else if (nat_of_ascii c =? 8)%nat then "\b"
  else if (nat_of_ascii c =? 12)%nat then "\f"
  else String c EmptyString.

Fixpoint escaped (s : string) : string :=
  match s with
  | EmptyString => EmptyString
  | String c rest => escape c +:+ escaped rest
  end.

Definition quote (s : string) : string :=
  String dquote (escaped s +:+ String dquote EmptyString).

Fixpoint commas (parts : list string) : string :=
  match parts with
  | [] => EmptyString
  | [p] => p
  | p :: rest => p +:+ "," +:+ commas rest
  end.

Definition defined (v : JSValue) : bool :=
  match v with VUndefined => false | _ => true end.

(** [JSON.stringify]: a field whose value is [undefined] is left out, an
    [undefined] item is written as [null], and [Data] and [Image], which
    have no enumerable properties, as an empty object. *)
Fixpoint stringify (v : JSValue) : string :=
  match v with
  | VUndefined | VNull => "null"
  | VBool true => "true"
  | VBool false => "false"
  | VNum n => NilZero.string_of_int (Z.to_int n)
  | VStr s => quote s
  | VArr vs => "[" +:+ commas (map stringify vs) +:+ "]"
  | VObj kvs =>
      "{" +:+
      commas ((fix fields (l : list (string * JSValue)) : list string :=
                 match l with
                 | [] => []
                 | (k, x) :: rest =>
                     if defined x
                     then (quote k +:+ ":" +:+ stringify x) :: fields rest
                     else fields rest
                 end) kvs)
      +:+ "}"
  | VData _ | VImage _ => "{}"
  end.

Definition runtime : JSRuntime :=
  {| JSON_parse := parse; JSON_stringify := stringify |}.

End MiniJSON.

(** ** An executable backend: [MemFM]

    Files by absolute path.  A file kept in iCloud can be read once it has
    been downloaded.  Downloading brings it to the device when iCloud is
    reachable for it; when not, the download ends without the file, and the
    read that follows throws.  A written file is on the device. *)

Record MemFile : Type := {
  mf_text : string;
  mf_inCloud : bool;
  mf_downloaded : bool;
  mf_reachable : bool
}.

Module MemFM.

Definition local (text : string) : MemFile :=
  {| mf_text := text; mf_inCloud := false; mf_downloaded := true;
     mf_reachable := true |}.

Definition readable (f : MemFile) : bool :=
  negb (mf_inCloud f) || mf_downloaded f.

Definition notFoundError (path : string) : Exn :=
  JsError "Error" ("The file " +:+ path +:+ " does not exist.").

Definition notDownloadedError (path : string) : Exn :=
  JsError "Error" ("The file " +:+ path +:+ " has not been downloaded.").

Definition contents (d : gmap string MemFile) (path : string)
  : Outcome string :=
  match d !! path with
  | Some f =>
      if readable f then Returned (mf_text f)
      else Thrown (notDownloadedError path)
  | None => Thrown (notFoundError path)
  end.

Definition download (path : string) (d : gmap string MemFile)
  : Outcome unit * gmap string MemFile :=
  match d !! path with
  | Some f =>
      if readable f then (Returned tt, d)
      else if mf_reachable f
      then (Returned tt,
            <[path := {| mf_text := mf_text f; mf_inCloud := mf_inCloud f;
                         mf_downloaded := true;
                         mf_reachable := mf_reachable f |}]> d)
      else (Returned tt, d)
  | None => (Thrown (notFoundError path), d)
  end.

Definition api : FileManagerAPI (gmap string MemFile) :=
  {| fm_joinPath := fun lhs rhs => lhs +:+ "/" +:+ rhs;
     fm_fileExists := fun d path => bool_decide (is_Some (d !! path));
     fm_isFileStoredIniCloud := fun d path =>
       match d !! path with Some f => mf_inCloud f | None => false end;
     fm_isFileDownloaded := fun d path =>
       match d !! path with Some f => readable f | None => false end;
     fm_downloadFileFromiCloud := download;
     fm_read := fun d path =>
       match contents d path with
       | Returned text => Returned (VData text)
       | Thrown e => Thrown e
       end;
     fm_readString := contents;
     fm_readImage := fun d path =>
       match contents d path with
       | Returned text => Returned (VImage text)
       | Thrown e => Thrown e
       end;
     fm_writeString := fun path content d =>
       (Returned tt, <[path := local content]> d) |}.

Definition downloadError (path : string) : Exn :=
  JsError "Error" ("The file " +:+ path +:+ " could not be downloaded.").

(** The same backend, except that the download of a file that is out of
    reach throws. *)
Definition rejecting : FileManagerAPI (gmap string MemFile) :=
  {| fm_joinPath := fm_joinPath api;
     fm_fileExists := fm_fileExists api;
     fm_isFileStoredIniCloud := fm_isFileStoredIniCloud api;
     fm_isFileDownloaded := fm_isFileDownloaded api;
     fm_downloadFileFromiCloud := fun path d =>
       match d !! path with
       | Some f =>
           if negb (readable f) && negb (mf_reachable f)
           then (Thrown (downloadError path), d)
           else download path d
       | None => download path d
       end;
     fm_read := fm_read api;
     fm_readString := fm_readString api;
     fm_readImage := fm_readImage api;
     fm_writeString := fm_writeString api |}.

(** A world with the files [files] and nothing allocated, called or
    logged. *)
Definition world (files : list (string * MemFile))
  : World (gmap string MemFile) :=
  mkWorld (list_to_map files) [] [] [].

End MemFM.

(** ** An executable device: [MemDevice]

    The files of [MemFM] and a set of directories.  Creating a directory
    enters it in the set. *)

Module MemDevice.

Definition onFiles
    (f : gmap string MemFile -> Outcome unit * gmap string MemFile)
    (d : gmap string MemFile * gset string)
  : Outcome unit * (gmap string MemFile * gset string) :=
  let (o, files) := f (fst d) in (o, (files, snd d)).

Definition api : FileManagerAPI (gmap string MemFile * gset string) :=
  {| fm_joinPath := fm_joinPath MemFM.api;
     fm_fileExists := fun d path => fm_fileExists MemFM.api (fst d) path;
     fm_isFileStoredIniCloud := fun d path =>
       fm_isFileStoredIniCloud MemFM.api (fst d) path;
     fm_isFileDownloaded := fun d path =>
       fm_isFileDownloaded MemFM.api (fst d) path;
     fm_downloadFileFromiCloud := fun path =>
       onFiles (fm_downloadFileFromiCloud MemFM.api path);
     fm_read := fun d path => fm_read MemFM.api (fst d) path;
     fm_readString := fun d path => fm_readString MemFM.api (fst d) path;
     fm_readImage := fun d path => fm_readImage MemFM.api (fst d) path;
     fm_writeString := fun path content =>
       onFiles (fm_writeString MemFM.api path content) |}.

(** A file manager object whose documents directory is [documents]. *)
Definition object (documents : Outcome string)
  : FileManagerObject (gmap string MemFile * gset string) :=
  {| fm_api := api;
     fm_documentsDirectory := documents;
     fm_isDirectory := fun d path => bool_decide (path ∈ snd d);
     fm_createDirectory := fun path d =>
       (Returned tt, (fst d, {[path]} ∪ snd d)) |}.

Definition notSignedIn : Exn :=
  JsError "Error" "iCloud must be enabled to use it.".

(** A device with iCloud set up, and one without. *)
Definition withICloud : Scriptable (gmap string MemFile * gset string) :=
  {| FileManager_iCloud := Returned (object (Returned "/icloud"));
     FileManager_local := object (Returned "/docs") |}.

Definition withoutICloud : Scriptable (gmap string MemFile * gset string) :=
  {| FileManager_iCloud := Returned (object (Thrown notSignedIn));
     FileManager_local := object (Returned "/docs") |}.

(** A world with the directories [dirs] and no files. *)
Definition world (dirs : list string)
  : World (gmap string MemFile * gset string) :=
  mkWorld (∅, list_to_set dirs) [] [] [].

End MemDevice.

(** ** The vocabulary of the properties *)

(** *** Runs *)

(** [m], run in [w], returns a reference to the response [obj]. *)
Definition yields {D : Type} (m : M D Ref) (w : World D) (obj : DataResponse)
  : Prop :=
  exists r w', m w = (Returned r, w') /\ heap w' !! r = Some obj.

(** As [yields], and the run wrote exactly [lines] to the console. *)
Definition constructs {D : Type} (m : M D Ref) (w : World D)
    (obj : DataResponse) (lines : list LogEntry) : Prop :=
  exists r w',
    m w = (Returned r, w') /\ heap w' !! r = Some obj /\
    console w' = console w ++ lines.

(** [m], run in [w], throws [e] to its caller. *)
Definition throws {D A : Type} (m : M D A) (w : World D) (e : Exn) : Prop :=
  exists w', m w = (Thrown e, w').

(** [m], run in [w], made exactly the backend calls [tr], in this order. *)
Definition emits {D A : Type} (m : M D A) (w : World D) (tr : list Call)
  : Prop :=
  calls (snd (m w)) = calls w ++ tr.

(** *** Responses *)

Definition notFoundResponse : DataResponse :=
  {| data := VNull; status := NOT_FOUND; msg := None |}.

Definition errorResponse : DataResponse :=
  {| data := VNull; status := ERROR; msg := None |}.

Definition okResponse (payload : JSValue) : DataResponse :=
  {| data := payload; status := OK; msg := None |}.

(** [fromExisting(of(p, s0, m), s1)] has payload [p], message [m] and
    status [s1], and leaves the result it was made from as it was. *)
Definition fromExisting_copies {D : Type} (w : World D) (p : JSValue)
    (s0 : DataStatus) (m : option string) (s1 : DataStatus) : Prop :=
  exists r0 r1 w1 w2,
    DataResponse.new p (Some s0) m w = (Returned r0, w1) /\
    DataResponse.fromDataResponse r0 s1 w1 = (Returned r1, w2) /\
    heap w2 !! r1 = Some {| data := p; status := s1; msg := m |} /\
    r1 <> r0 /\
    heap w2 !! r0 = heap w1 !! r0.

(** A JSON array, scalar or [null]. *)
Definition not_an_object (v : JSValue) : bool :=
  match v with
  | VArr _ | VNull | VBool _ | VNum _ | VStr _ => true
  | VObj _ | VUndefined | VData _ | VImage _ => false
  end.

(** *** Extensions and paths *)

(** [typeByExtension(extensionByType(k, true))] returns [k]. *)
Definition extension_round_trip (k : FileType) : Prop :=
  CustomFileManager.typeByExtension
    (CustomFileManager.extensionByType k (Some true)) = Returned k.

(** The extensions [typeByExtension] maps. *)
Definition mapped_extension (extension : string) : Prop :=
  extension = "txt" \/ extension = "json" \/ extension = "log".

(** The file name that [read] and [write] of [CustomFileManager] use for
    [file] under the kind [type]. *)
Definition resolved (file : string) (type : FileType) : string :=
  let ext := CustomFileManager.extensionByType type None in
  if endsWith file ext then file else file +:+ ext.

(** The file name that the JSON readers of [NewFileManager] use. *)
Definition resolvedJSON (filePath : string) (autoExtension : option bool)
  : string :=
  if default true autoExtension && negb (endsWith filePath ".json")
  then filePath +:+ ".json" else filePath.

(** *** States of the backend *)

(** [path] is in iCloud and its download is still to be done. *)
Definition pending {D : Type} (fm : FileManagerAPI D) (d : D) (path : string)
  : bool :=
  fm_isFileStoredIniCloud fm d path && negb (fm_isFileDownloaded fm d path).

(** The backend once a pending download of [path] has been awaited;
    [None] when the download fails. *)
Definition materialised {D : Type} (fm : FileManagerAPI D) (d : D)
    (path : string) : option D :=
  if pending fm d path then
    match fm_downloadFileFromiCloud fm path d with
    | (Returned _, d') => Some d'
    | (Thrown _, _) => None
    end
  else Some d.

(** [path] is an existing file whose text is [text]: it exists, a pending
    download of it succeeds, and then it still exists and the backend reads
    [text] from it. *)
Definition holds_text {D : Type} (fm : FileManagerAPI D) (d : D)
    (path text : string) : Prop :=
  fm_fileExists fm d path = true /\
  exists d',
    materialised fm d path = Some d' /\
    fm_fileExists fm d' path = true /\
    fm_readString fm d' path = Returned text.

(** [path] does not exist in the backend, on the device or in iCloud. *)
Definition absent {D : Type} (fm : FileManagerAPI D) (d : D) (path : string)
  : Prop :=
  fm_fileExists fm d path = false /\ fm_isFileStoredIniCloud fm d path = false.

(** *** The order of backend calls *)

(** The steps of a read: the existence check, the questions about iCloud,
    the download, the raw read. *)
Definition phase (c : Call) : nat :=
  match c with
  | CallFileExists _ => 0
  | CallIsFileStoredIniCloud _ | CallIsFileDownloaded _ => 1
  | CallDownloadFileFromiCloud _ => 2
  | CallRead _ | CallReadString _ | CallReadImage _ => 3
  | CallWriteString _ _ => 4
  end.

Fixpoint ascending (phases : list nat) : bool :=
  match phases with
  | a :: rest =>
      match rest with
      | b :: _ => (a <=? b)%nat && ascending rest
      | [] => true
      end
  | [] => true
  end.

(** [tr] starts with the existence check, and goes on to the download and
    then to the raw read, as far as it goes. *)
Definition exists_download_read (tr : list Call) : bool :=
  match tr with
  | CallFileExists _ :: _ => ascending (map phase tr)
  | _ => false
  end.

(** The calls of [a() && !b()] on [path], and of the download when it is
    pending. *)
Definition cloud_calls {D : Type} (fm : FileManagerAPI D) (d : D)
    (path : string) : list Call :=
  CallIsFileStoredIniCloud path ::
  (if fm_isFileStoredIniCloud fm d path then [CallIsFileDownloaded path]
   else []) ++
  (if pending fm d path then [CallDownloadFileFromiCloud path] else []).

(** Existence check, then download, then the raw read [raw]. *)
Definition calls_exists_first {D : Type} (fm : FileManagerAPI D) (d : D)
    (path : string) (raw : Call) : list Call :=
  CallFileExists path ::
  (if fm_fileExists fm d path then
     cloud_calls fm d path ++
     match materialised fm d path with
     | Some _ => [raw]
     | None => []
     end
   else []).

(** Download, then existence check, then [readString]. *)
Definition calls_download_first {D : Type} (fm : FileManagerAPI D) (d : D)
    (path : string) : list Call :=
  cloud_calls fm d path ++
  match materialised fm d path with
  | Some d' =>
      CallFileExists path ::
      (if fm_fileExists fm d' path then [CallReadString path] else [])
  | None => []
  end.

(** *** Inputs of the examples *)

(** A typed manager and a path-scoped accessor over the directory
    [/docs/data]. *)
Definition typedManager : CustomFileManager :=
  {| basedir := "data"; basepath := "/docs/data"; scriptableDir := "/docs";
     filestub := "stub" |}.

Definition scopedAccessor : NewFileManager :=
  {| nfm_basepath := "/docs/data"; nfm_filestub := None |}.

(** The world with nothing on disk, allocated, called or logged. *)
Definition blank : World unit := mkWorld tt [] [] [].

(** The record [{a: 1}]. *)
Definition a_is_1 : list (string * JSValue) := [("a", VNum 1)].

(** A file in iCloud that is still to be downloaded. *)
Definition inCloud (text : string) : MemFile :=
  {| mf_text := text; mf_inCloud := true; mf_downloaded := false;
     mf_reachable := true |}.

(** Worlds of the in-memory backend with one file: a note in iCloud, an
    array, malformed JSON. *)
Definition cloudNote : World (gmap string MemFile) :=
  MemFM.world [("/docs/data/note.txt", inCloud "hello")].

Definition arrayFile : World (gmap string MemFile) :=
  MemFM.world [("/docs/data/arr.json", MemFM.local "[1,2,3]")].

Definition malformedFile : World (gmap string MemFile) :=
  MemFM.world [("/docs/data/bad.json", MemFM.local "{")].

(** A world where [rec.json] is in iCloud with an earlier text. *)
Definition staleRecord : World (gmap string MemFile) :=
  MemFM.world [("/docs/data/rec.json", inCloud "[0]")].

(** A world whose one file is in iCloud, not downloaded, and out of
    reach. *)
Definition unreachableNote : World (gmap string MemFile) :=
  MemFM.world
    [("/docs/data/far.txt",
      {| mf_text := "hello"; mf_inCloud := true; mf_downloaded := false;
         mf_reachable := false |})].

(** *** Calls on [DataResponse] *)

(** A call of the constructor or of a static method that makes a
    response. *)
Inductive ResponseCall : Type :=
  | OfNew (p : JSValue) (s : option DataStatus) (m : option string)
  | OfEmpty (s : option DataStatus) (m : option string)
  | OfNotFound (m : option string)
  | OfError (m : option string)
  | OfApiError (m : option string)
  | OfOk (p : JSValue) (m : option string)
  | OfFromDataResponse (resp : Ref) (s : DataStatus)
  | OfCached (data : Cacheable).

Definition perform {D : Type} (c : ResponseCall) : M D Ref :=
  match c with
  | OfNew p s m => DataResponse.new p s m
  | OfEmpty s m => DataResponse.empty s m
  | OfNotFound m => DataResponse.notFound m
  | OfError m => DataResponse.error m
  | OfApiError m => DataResponse.apiError m
  | OfOk p m => DataResponse.ok p m
  | OfFromDataResponse resp s => DataResponse.fromDataResponse resp s
  | OfCached data => DataResponse.cached data
  end.

(** No response in [objs] has the empty string as its message. *)
Definition no_empty_message (objs : list DataResponse) : Prop :=
  Forall (fun obj => msg obj <> Some EmptyString) objs.

(** [obj] with the status [s] in place of its own. *)
Definition with_status (obj : DataResponse) (s : DataStatus) : DataResponse :=
  {| data := data obj; status := s; msg := msg obj |}.

(** *** What the readers answer *)

(** The kinds whose files are read as they are. *)
Definition textual (k : FileType) : bool :=
  match k with
  | TEXT | LOG | OTHER => true
  | JSON | JSON_DICT => false
  end.

(** The kinds whose files are parsed. *)
Definition parsed (k : FileType) : bool := negb (textual k).

(** The world after the questions about iCloud, and the download if one was
    pending, once the backend is in the state [d]. *)
Definition after_cloud_calls {D : Type} (fm : FileManagerAPI D) (w : World D)
    (path : string) (d : D) : World D :=
  mkWorld d (heap w) (calls w ++ cloud_calls fm (disk w) path) (console w).

(** [c] is a call that writes. *)
Definition is_write (c : Call) : bool :=
  match c with
  | CallWriteString _ _ => true
  | _ => false
  end.

(** The text that [write] of [CustomFileManager] hands to the backend. *)
Definition written_text (js : JSRuntime) (payload : Payload) (k : FileType)
  : string :=
  match payload with
  | PRecord fields => JSON_stringify js (VObj fields)
  | PString text => if parsed k then JSON_stringify js (VStr text) else text
  end.

(** The outcome and the world of the backend's [writeString] of [content]
    to [path], called in [w]. *)
Definition delegated_write {D : Type} (fm : FileManagerAPI D) (w : World D)
    (path content : string) : Outcome unit * World D :=
  let done := fm_writeString fm path content (disk w) in
  (fst done,
   mkWorld (snd done) (heap w) (calls w ++ [CallWriteString path content])
           (console w)).

(** [writeString] of [content] to [path] returns, and then the file holds
    [content]. *)
Definition keeps_written {D : Type} (fm : FileManagerAPI D) (d : D)
    (path content : string) : Prop :=
  fst (fm_writeString fm path content d) = Returned tt /\
  holds_text fm (snd (fm_writeString fm path content d)) path content.

(** A world whose one file is a note on the device. *)
Definition localNote : World (gmap string MemFile) :=
  MemFM.world [("/docs/data/note.txt", MemFM.local "hello")].

(** A world whose one file is in iCloud, not downloaded, and out of
    reach, for the backend [MemFM.rejecting]. *)
Definition farJSON : World (gmap string MemFile) :=
  MemFM.world
    [("/docs/data/far.json",
      {| mf_text := "[]"; mf_inCloud := true; mf_downloaded := false;
         mf_reachable := false |})].

(** The response that reading back what was written under the kind
    [readKind] gives: a string is not a dictionary. *)
Definition read_back (payload : Payload) (readKind : FileType)
  : DataResponse :=
  match readKind, payload with
  | JSON_DICT, PString _ => errorResponse
  | _, _ => okResponse (payload_value payload)
  end.

(** *** Constructors *)

(** The file manager object that the constructors keep: the iCloud one when
    [FileManager.iCloud()] returns it and it knows its documents
    directory, the local one otherwise. *)
Definition chosen {D : Type} (env : Scriptable D) : FileManagerObject D :=
  match FileManager_iCloud env with
  | Returned cloud =>
      match fm_documentsDirectory cloud with
      | Returned _ => cloud
      | Thrown _ => FileManager_local env
      end
  | Thrown _ => FileManager_local env
  end.

(** The warning that goes with the local one. *)
Definition fallback_warning {D : Type} (env : Scriptable D) : list LogEntry :=
  match FileManager_iCloud env with
  | Returned cloud =>
      match fm_documentsDirectory cloud with
      | Returned _ => []
      | Thrown e => [LogWarn (exn_text e)]
      end
  | Thrown e => [LogWarn (exn_text e)]
  end.

(** A data object with the id [42] and the storage object [{a: 1}], kept by
    [typedManager]. *)
Definition answerData : CustomData :=
  {| cd_id := "42"; cd_meta := []; cd_data := [a_is_1];
     cd_fm := Some typedManager |}.

(** *** Numbers *)

(** [x <= y] on numbers, neither of them [NaN]. *)
Definition at_most (x y : JSNumber) : Prop :=
  match x, y with
  | NaN, _ | _, NaN => False
  | NegInfinity, _ => True
  | _, PosInfinity => True
  | Finite p, Finite q => (p <= q)%Qc
  | _, _ => False
  end.

(** What a record counts for under [index]: the number it has there, and 0
    when it has something else there, or nothing. *)
Definition counted (value : list (string * Unknown)) (index : string)
  : JSNumber :=
  match lastBinding value index with
  | Some (UNumber x) => x
  | Some (UValue (VNum n)) => Finite (Qc_of_Z n)
  | Some (UValue _) | None => Finite (Qc_of_Z 0)
  end.

(** An engine that passes up to 1024 arguments. *)
Definition smallEngine : Engine :=
  {| maxArguments := 1024;
     tooManyArguments :=
       JsError "RangeError" "Maximum call stack size exceeded." |}.

(** The records [{a: 1}], [{a: NaN}] and [{a: 5}]. *)
Definition oneNaN : list (list (string * Unknown)) :=
  [[("a", UNumber (Finite (Qc_of_Z 1)))];
   [("a", UNumber NaN)];
   [("a", UNumber (Finite (Qc_of_Z 5)))]].

(** * Properties *)

(** ** Runs, by their outcome and their final world *)

Lemma yields_run {D : Type} (m : M D Ref) (w : World D) (obj : DataResponse) :
  yields m w obj <->
  exists r, fst (m w) = Returned r /\ heap (snd (m w)) !! r = Some obj.
Proof.
  unfold yields. destruct (m w) as [o w1]. simpl. split.
  - intros (r & w' & Hrun & Hobj). injection Hrun as -> ->. eauto.
  - intros (r & -> & Hobj). eauto.
Qed.

Lemma constructs_run {D : Type} (m : M D Ref) (w : World D)
    (obj : DataResponse) (lines : list LogEntry) :
  constructs m w obj lines <->
  exists r,
    fst (m w) = Returned r /\ heap (snd (m w)) !! r = Some obj /\
    console (snd (m w)) = console w ++ lines.
Proof.
  unfold constructs. destruct (m w) as [o w1]. simpl. split.
  - intros (r & w' & Hrun & Hobj). injection Hrun as -> ->. eauto.
  - intros (r & -> & Hobj). eauto.
Qed.

Lemma throws_run {D A : Type} (m : M D A) (w : World D) (e : Exn) :
  throws m w e <-> fst (m w) = Thrown e.
Proof.
  unfold throws. destruct (m w) as [o w1]. simpl. split.
  - intros (w' & Hrun). injection Hrun as -> ->. reflexivity.
  - intros ->. eauto.
Qed.

(** ** DataResponse *)

Lemma lookup_allocated (objs : list DataResponse) (obj : DataResponse) :
  (objs ++ [obj]) !! List.length objs = Some obj.
Proof. by apply list_lookup_middle. Qed.

Lemma lookup_older (objs : list DataResponse) (obj : DataResponse) (r : Ref) :
  r < List.length objs -> (objs ++ [obj]) !! r = objs !! r.
Proof. intros Hr. by apply lookup_app_l. Qed.

Lemma constructs_alloc {D : Type} (w : World D) (obj : DataResponse) :
  constructs (alloc obj) w obj [].
Proof.
  exists (List.length (heap w)), (snd (alloc obj w)). simpl.
  split; [reflexivity|]. split; [apply lookup_allocated|].
  symmetry. apply app_nil_r.
Qed.

Lemma constructs_warned {D : Type} (w : World D) (text : string)
    (obj : DataResponse) :
  constructs (console_warn text;; alloc obj) w obj [LogWarn text].
Proof.
  eexists _, _. split; [reflexivity|]. simpl.
  split; [apply lookup_allocated | reflexivity].
Qed.

(** C9, as amended.  For a message [m] that is absent or a non-empty
    string, [fromDataResponse] applied to [new DataResponse(p, s0, m)] with
    the status [s1] returns a new object with payload [p], message [m] and
    status [s1], and the object it was made from is unchanged.  For the
    empty string as message, neither object has a message. *)
Theorem fromDataResponse_copies :
  forall (D : Type) (w : World D) (p : JSValue) (s0 s1 : DataStatus),
    (forall m : option string,
        m <> Some EmptyString -> fromExisting_copies w p s0 m s1) /\
    (exists r0 r1 w1 w2,
        DataResponse.new p (Some s0) (Some EmptyString) w = (Returned r0, w1) /\
        DataResponse.fromDataResponse r0 s1 w1 = (Returned r1, w2) /\
        heap w2 !! r0 = Some {| data := p; status := s0; msg := None |} /\
        heap w2 !! r1 = Some {| data := p; status := s1; msg := None |}).
Proof.
  intros D w p s0 s1. split.
  - intros m Hm.
    assert (Hstored : (if DataResponse.truthy m then m else None) = m).
    { destruct m as [[|c t]|]; [congruence|reflexivity|reflexivity]. }
    exists (List.length (heap w)),
           (S (List.length (heap w))),
           (snd (DataResponse.new p (Some s0) m w)),
           (snd (DataResponse.fromDataResponse (List.length (heap w)) s1
                   (snd (DataResponse.new p (Some s0) m w)))).
    unfold DataResponse.fromDataResponse, DataResponse.new, bind, load, alloc.
    simpl. rewrite Hstored, lookup_allocated. simpl.
    rewrite Hstored, !length_app. simpl.
    replace (List.length (heap w) + 1) with (S (List.length (heap w))) by lia.
    repeat split.
    + replace (S (List.length (heap w)))
        with (List.length (heap w ++ [mkDataResponse p s0 m])).
      * apply lookup_allocated.
      * rewrite length_app. simpl. lia.
    + lia.
    + rewrite lookup_older by (rewrite length_app; simpl; lia).
      apply lookup_allocated.
  - exists (List.length (heap w)),
           (S (List.length (heap w))),
           (snd (DataResponse.new p (Some s0) (Some EmptyString) w)),
           (snd (DataResponse.fromDataResponse (List.length (heap w)) s1
                   (snd (DataResponse.new p (Some s0) (Some EmptyString) w)))).
    unfold DataResponse.fromDataResponse, DataResponse.new, bind, load, alloc.
    simpl. rewrite lookup_allocated. simpl.
    rewrite !length_app. simpl.
    replace (List.length (heap w) + 1) with (S (List.length (heap w))) by lia.
    repeat split.
    + rewrite lookup_older by (rewrite length_app; simpl; lia).
      apply lookup_allocated.
    + replace (S (List.length (heap w)))
        with (List.length (heap w ++ [mkDataResponse p s0 None])).
      * apply lookup_allocated.
      * rewrite length_app. simpl. lia.
Qed.

(** A result with a message, and the result derived from it. *)
Lemma fromDataResponse_copies_witness :
  Some "cached earlier" <> Some EmptyString /\
  fromExisting_copies blank (VNum 7) OK (Some "cached earlier") CACHED.
Proof.
  split; [discriminate|].
  apply (proj1 (fromDataResponse_copies unit blank (VNum 7) OK CACHED)).
  discriminate.
Defined.

(** C9 as stated fails for the empty string as message: the derived result
    has no message at all. *)
Lemma fromDataResponse_drops_empty_message :
  ~ fromExisting_copies blank (VStr "x") OK (Some EmptyString) CACHED.
Proof.
  intros (r0 & r1 & w1 & w2 & Hnew & Hfrom & Hobj & _).
  cbv in Hnew. injection Hnew as <- <-.
  cbv in Hfrom. injection Hfrom as <- <-.
  cbv in Hobj. discriminate Hobj.
Qed.

(** C10.  A result constructed with the empty string as message, by the
    constructor or by [empty], [notFound], [error], [apiError] or [ok], has
    no message, and [empty] and its three variants write nothing to the
    console for it.  A non-empty message is stored by all six, and written
    to the console as a warning by [empty] and its variants.  An omitted
    message is neither stored nor logged. *)
Theorem empty_message_is_absent :
  forall (D : Type) (w : World D) (p : JSValue) (s : option DataStatus),
    let made d st m := {| data := d; status := st; msg := m |} in
    (* the empty string *)
    (constructs (DataResponse.new p s (Some EmptyString)) w
                (made p (default OK s) None) [] /\
     constructs (DataResponse.empty s (Some EmptyString)) w
                (made VNull (default OK s) None) [] /\
     constructs (DataResponse.notFound (Some EmptyString)) w
                (made VNull NOT_FOUND None) [] /\
     constructs (DataResponse.error (Some EmptyString)) w
                (made VNull ERROR None) [] /\
     constructs (DataResponse.apiError (Some EmptyString)) w
                (made VNull API_ERROR None) [] /\
     constructs (DataResponse.ok p (Some EmptyString)) w
                (made p OK None) []) /\
    (* a non-empty string *)
    (forall (c : ascii) (t : string),
        let text := String c t in
        constructs (DataResponse.new p s (Some text)) w
                   (made p (default OK s) (Some text)) [] /\
        constructs (DataResponse.empty s (Some text)) w
                   (made VNull (default OK s) (Some text)) [LogWarn text] /\
        constructs (DataResponse.notFound (Some text)) w
                   (made VNull NOT_FOUND (Some text)) [LogWarn text] /\
        constructs (DataResponse.error (Some text)) w
                   (made VNull ERROR (Some text)) [LogWarn text] /\
        constructs (DataResponse.apiError (Some text)) w
                   (made VNull API_ERROR (Some text)) [LogWarn text] /\
        constructs (DataResponse.ok p (Some text)) w
                   (made p OK (Some text)) []) /\
    (* no message *)
    (constructs (DataResponse.new p s None) w
                (made p (default OK s) None) [] /\
     constructs (DataResponse.empty s None) w
                (made VNull (default OK s) None) [] /\
     constructs (DataResponse.ok p None) w (made p OK None) []).
Proof.
  intros D w p s made.
  assert (Hsilent : forall obj, constructs (ret tt;; alloc obj) w obj []).
  { intros obj. destruct (constructs_alloc w obj) as (r & w' & H).
    exists r, w'. exact H. }
  split; [|split].
  - repeat split;
      first [ apply constructs_alloc | apply Hsilent ].
  - intros c t text.
    repeat split;
      first [ apply constructs_alloc | apply constructs_warned ].
  - repeat split;
      first [ apply constructs_alloc | apply Hsilent ].
Qed.

(** ** The extension table *)

(** C8, as amended.  [typeByExtension(extensionByType(k, true))] returns [k]
    for the kinds [TEXT], [JSON] and [LOG]; for [JSON_DICT], which shares
    the extension of [JSON], it returns [JSON], and for [OTHER], whose
    extension is the empty string, it throws.  [typeByExtension] throws
    exactly on the extensions other than [txt], [json] and [log], and what
    it throws is an [Error] naming the extension. *)
Theorem typeByExtension_inverts_three_kinds :
  (extension_round_trip TEXT /\
   extension_round_trip JSON /\
   extension_round_trip LOG) /\
  CustomFileManager.typeByExtension
    (CustomFileManager.extensionByType JSON_DICT (Some true)) = Returned JSON /\
  CustomFileManager.typeByExtension
    (CustomFileManager.extensionByType OTHER (Some true))
    = Thrown (JsError "Error" "Unknown extension .") /\
  (forall extension : string,
      (exists e, CustomFileManager.typeByExtension extension = Thrown e)
      <-> ~ mapped_extension extension) /\
  (forall (extension : string) (e : Exn),
      CustomFileManager.typeByExtension extension = Thrown e ->
      e = JsError "Error" ("Unknown extension " +:+ extension +:+ ".")).
Proof.
  split; [repeat split|]. split; [reflexivity|]. split; [reflexivity|].
  split.
  - intros extension. unfold CustomFileManager.typeByExtension, mapped_extension.
    destruct (String.eqb_spec extension "txt") as [->|Htxt].
    { split; [intros [e He]; discriminate | intros H; exfalso; apply H; auto]. }
    destruct (String.eqb_spec extension "json") as [->|Hjson].
    { split; [intros [e He]; discriminate | intros H; exfalso; apply H; auto]. }
    destruct (String.eqb_spec extension "log") as [->|Hlog].
    { split; [intros [e He]; discriminate | intros H; exfalso; apply H; auto]. }
    split; [intros _ [H|[H|H]]; contradiction | intros _; eauto].
  - intros extension e. unfold CustomFileManager.typeByExtension.
    destruct (extension =? "txt")%string; [discriminate|].
    destruct (extension =? "json")%string; [discriminate|].
    destruct (extension =? "log")%string; [discriminate|].
    intros H. injection H as <-. reflexivity.
Qed.

(** C8 as stated fails at the kind [JSON_DICT]: its extension is mapped back
    to [JSON]. *)
Lemma typeByExtension_not_inverse_on_JSON_DICT :
  ~ (forall k : FileType, extension_round_trip k).
Proof. intros H. specialize (H JSON_DICT). discriminate H. Qed.

(** ** Paths and extensions *)

Lemma endsWith_refl (s : string) : endsWith s s = true.
Proof. destruct s; cbn [endsWith]; rewrite String.eqb_refl; reflexivity. Qed.

Lemma endsWith_app (s suffix : string) : endsWith (s +:+ suffix) suffix = true.
Proof.
  induction s as [|c s IH].
  - apply endsWith_refl.
  - change (String c s +:+ suffix) with (String c (s +:+ suffix)).
    cbn [endsWith]. rewrite IH. apply orb_true_r.
Qed.

Lemma resolved_cases (file : string) (type : FileType) :
  let ext := CustomFileManager.extensionByType type None in
  (endsWith file ext = true /\ resolved file type = file) \/
  (endsWith file ext = false /\ resolved file type = file +:+ ext).
Proof.
  unfold resolved. simpl.
  destruct (endsWith file (CustomFileManager.extensionByType type None));
    [left | right]; split; reflexivity.
Qed.

Lemma resolved_endsWith (file : string) (type : FileType) :
  endsWith (resolved file type) (CustomFileManager.extensionByType type None)
  = true.
Proof.
  destruct (resolved_cases file type) as [[H ->]|[_ ->]];
    [exact H | apply endsWith_app].
Qed.

Lemma resolved_idempotent (file : string) (type : FileType) :
  resolved (resolved file type) type = resolved file type.
Proof.
  unfold resolved at 1. simpl. rewrite resolved_endsWith. reflexivity.
Qed.

(** Running a method on an abstract backend: unfold the monad and split on
    what the backend answers. *)
Ltac unfold_run :=
  unfold emits, yields, constructs, throws,
    CustomFileManager.read, CustomFileManager.write,
    NewFileManager.readS, NewFileManager.readStringS, NewFileManager.readJSONS,
    NewFileManager.readJSONDictS, NewFileManager.readImageS,
    NewFileManager.readSmartWrapper, NewFileManager.readJSONDict,
    NewFileManager.readJSON, NewFileManager.read, NewFileManager.readString,
    NewFileManager.readImage, NewFileManager.fileExists,
    NewFileManager.isFileStoredIniCloud, NewFileManager.isFileDownloaded,
    NewFileManager.downloadFileFromiCloud, promise_is_null,
    DataResponse.notFound, DataResponse.error, DataResponse.ok,
    DataResponse.empty, DataResponse.new,
    and_not, fileExists, isFileStoredIniCloud, isFileDownloaded,
    downloadFileFromiCloud, read, readString, readImage, writeString,
    query, reader, action, logged, lift, console_warn, console_error, alloc,
    try_catch, bind, ret.

Ltac split_run :=
  repeat (simpl;
    match goal with
    | |- context [fm_isFileStoredIniCloud ?fm ?d ?p] =>
        destruct (fm_isFileStoredIniCloud fm d p) eqn:?
    | |- context [fm_isFileDownloaded ?fm ?d ?p] =>
        destruct (fm_isFileDownloaded fm d p) eqn:?
    | |- context [fm_downloadFileFromiCloud ?fm ?p ?d] =>
        destruct (fm_downloadFileFromiCloud fm p d) as [[[]|?] ?] eqn:?
    | |- context [fm_fileExists ?fm ?d ?p] =>
        destruct (fm_fileExists fm d p) eqn:?
    | |- context [fm_readString ?fm ?d ?p] =>
        destruct (fm_readString fm d p) eqn:?
    | |- context [fm_read ?fm ?d ?p] =>
        destruct (fm_read fm d p) eqn:?
    | |- context [fm_readImage ?fm ?d ?p] =>
        destruct (fm_readImage fm d p) eqn:?
    | |- context [fm_writeString ?fm ?p ?c ?d] =>
        destruct (fm_writeString fm p c d) as [[[]|?] ?] eqn:?
    | |- context [JSON_parse ?js ?t] =>
        destruct (JSON_parse js t) eqn:?
    | |- context [negb (typeof ?v =? "object")%string || isArray ?v
                  || isNull ?v] =>
        destruct (negb (typeof v =? "object")%string || isArray v
                  || isNull v) eqn:?
    end); simpl.

(** ** The steps of a safe read *)

(** The questions about iCloud and the download, with what follows. *)
Lemma await_download {D A : Type} (fm : FileManagerAPI D) (path : string)
    (rest : M D A) (w : World D) :
  (let* p := and_not (isFileStoredIniCloud fm path)
                     (isFileDownloaded fm path) in
   (if p then downloadFileFromiCloud fm path else ret tt);; rest) w
  = if pending fm (disk w) path then
      match fm_downloadFileFromiCloud fm path (disk w) with
      | (Returned _, d') => rest (after_cloud_calls fm w path d')
      | (Thrown e, d') => (Thrown e, after_cloud_calls fm w path d')
      end
    else rest (after_cloud_calls fm w path (disk w)).
Proof.
  unfold after_cloud_calls, cloud_calls, pending, and_not, bind, ret,
    isFileStoredIniCloud, isFileDownloaded, downloadFileFromiCloud, query,
    action, logged. simpl.
  destruct (fm_isFileStoredIniCloud fm (disk w) path); simpl;
    [destruct (fm_isFileDownloaded fm (disk w) path); simpl;
     [|destruct (fm_downloadFileFromiCloud fm path (disk w)) as [[[]|e] d']]|];
    simpl; rewrite <- ?app_assoc; reflexivity.
Qed.

Lemma await_materialised {D A : Type} (fm : FileManagerAPI D) (path : string)
    (rest : M D A) (w : World D) (d' : D) :
  materialised fm (disk w) path = Some d' ->
  (let* p := and_not (isFileStoredIniCloud fm path)
                     (isFileDownloaded fm path) in
   (if p then downloadFileFromiCloud fm path else ret tt);; rest) w
  = rest (after_cloud_calls fm w path d').
Proof.
  intros Hmat. rewrite await_download. unfold materialised in Hmat.
  destruct (pending fm (disk w) path).
  - destruct (fm_downloadFileFromiCloud fm path (disk w)) as [[[]|e] d2];
      [injection Hmat as ->; reflexivity | discriminate Hmat].
  - injection Hmat as ->. reflexivity.
Qed.

Lemma await_failed {D A : Type} (fm : FileManagerAPI D) (path : string)
    (rest : M D A) (w : World D) (e : Exn) (d1 : D) :
  pending fm (disk w) path = true ->
  fm_downloadFileFromiCloud fm path (disk w) = (Thrown e, d1) ->
  (let* p := and_not (isFileStoredIniCloud fm path)
                     (isFileDownloaded fm path) in
   (if p then downloadFileFromiCloud fm path else ret tt);; rest) w
  = (Thrown e, after_cloud_calls fm w path d1).
Proof.
  intros Hpending Hfails. rewrite await_download, Hpending, Hfails.
  reflexivity.
Qed.

(** [read] of [CustomFileManager], from the existence check on. *)
Lemma typed_read_steps {D : Type} (fm : FileManagerAPI D) (js : JSRuntime)
    (this : CustomFileManager) (w : World D) (file : string)
    (type' : option FileType) (configDir' : option bool) (d' : D) :
  let type := default TEXT type' in
  let path :=
    CustomFileManager.getAbsolutePath fm this (resolved file type)
      (default true configDir') in
  materialised fm (disk w) path = Some d' ->
  CustomFileManager.read fm js this file type' configDir' w
  = (let* present := fileExists fm path in
     if present then
       try_catch
         (let* resStr := readString fm path in
          if same_kind type JSON then
            let* parsed := lift (JSON_parse js resStr) in
            DataResponse.new parsed None None
          else if same_kind type JSON_DICT then
            let* dict := lift (JSON_parse js resStr) in
            if negb (typeof dict =? "object")%string
               || isArray dict || isNull dict
            then
              console_warn "read: parsed data not a dictionary.";;
              DataResponse.error None
            else DataResponse.new dict None None
          else DataResponse.new (VStr resStr) None None)
         (fun e => console_error e;; DataResponse.error None)
     else
       console_warn ("File " +:+ path +:+ " does not exist.");;
       DataResponse.notFound None)
      (after_cloud_calls fm w path d').
Proof.
  intros type path Hmat. subst type path. unfold resolved in *.
  unfold CustomFileManager.read. cbv zeta.
  rewrite (await_materialised fm _ _ w d' Hmat). reflexivity.
Qed.

(** [readSmartWrapper] on an existing file, from the call of [fn] on. *)
Lemma wrapper_steps {D : Type} (fm : FileManagerAPI D)
    (this : NewFileManager) (w : World D) (filePath : string)
    (fn : string -> M D JSValue) (d' : D) :
  let path := NewFileManager.mapPath fm this filePath in
  fm_fileExists fm (disk w) path = true ->
  materialised fm (disk w) path = Some d' ->
  NewFileManager.readSmartWrapper fm this filePath fn w
  = (let* res := fn filePath in DataResponse.ok res None)
      (after_cloud_calls fm (logged (CallFileExists path) w) path d').
Proof.
  intros path Hexists Hmat. subst path.
  unfold NewFileManager.readSmartWrapper, NewFileManager.fileExists,
    NewFileManager.isFileStoredIniCloud, NewFileManager.isFileDownloaded,
    NewFileManager.downloadFileFromiCloud.
  unfold bind at 1. unfold fileExists at 1, query at 1.
  rewrite Hexists. change (negb true) with false. cbv iota.
  rewrite (await_materialised fm _ _ (logged _ w) d'); [reflexivity|].
  exact Hmat.
Qed.

(** [read] of [CustomFileManager] on an existing file. *)
Ltac run_read :=
  unfold after_cloud_calls, bind, try_catch, fileExists, readString, read,
    readImage, query, reader, logged, lift, console_warn, console_error,
    DataResponse.ok, DataResponse.error, DataResponse.notFound,
    DataResponse.empty, DataResponse.new, alloc, ret;
  simpl.

Ltac constructed :=
  eexists _, _; (split; [reflexivity|]); simpl;
  (split; [apply lookup_allocated | rewrite ?app_nil_r; reflexivity]).

(** Discharging [holds_text] on a backend state that can be evaluated. *)
Ltac holds_by_evaluation d :=
  split; [vm_compute; reflexivity|];
  exists d; split; [vm_compute; reflexivity|];
  split; vm_compute; reflexivity.

Lemma typed_read_of_text {D : Type} (fm : FileManagerAPI D) (js : JSRuntime)
    (this : CustomFileManager) (w : World D) (file : string)
    (type' : option FileType) (configDir' : option bool) (text : string) :
  textual (default TEXT type') = true ->
  holds_text fm (disk w)
    (CustomFileManager.getAbsolutePath fm this
       (resolved file (default TEXT type')) (default true configDir')) text ->
  constructs (CustomFileManager.read fm js this file type' configDir') w
             (okResponse (VStr text)) [].
Proof.
  intros Hkind (_ & d' & Hmat & Hexists & Hread).
  unfold constructs, yields.
  rewrite (typed_read_steps fm js this w file type' configDir' d' Hmat).
  run_read. rewrite Hexists. simpl. rewrite Hread. simpl.
  destruct type' as [[]|]; simpl in *; try discriminate Hkind; constructed.
Qed.

Lemma typed_read_of_json {D : Type} (fm : FileManagerAPI D) (js : JSRuntime)
    (this : CustomFileManager) (w : World D) (file : string)
    (configDir' : option bool) (text : string) (v : JSValue) :
  holds_text fm (disk w)
    (CustomFileManager.getAbsolutePath fm this (resolved file JSON)
       (default true configDir')) text ->
  JSON_parse js text = Returned v ->
  constructs (CustomFileManager.read fm js this file (Some JSON) configDir') w
             (okResponse v) [].
Proof.
  intros (_ & d' & Hmat & Hexists & Hread) Hparse.
  unfold constructs, yields.
  rewrite (typed_read_steps fm js this w file (Some JSON) configDir' d' Hmat).
  run_read. rewrite Hexists. simpl. rewrite Hread. simpl.
  rewrite Hparse. simpl. constructed.
Qed.

Lemma typed_read_of_dictionary {D : Type} (fm : FileManagerAPI D)
    (js : JSRuntime) (this : CustomFileManager) (w : World D) (file : string)
    (configDir' : option bool) (text : string)
    (fields : list (string * JSValue)) :
  holds_text fm (disk w)
    (CustomFileManager.getAbsolutePath fm this (resolved file JSON_DICT)
       (default true configDir')) text ->
  JSON_parse js text = Returned (VObj fields) ->
  constructs
    (CustomFileManager.read fm js this file (Some JSON_DICT) configDir') w
    (okResponse (VObj fields)) [].
Proof.
  intros (_ & d' & Hmat & Hexists & Hread) Hparse.
  unfold constructs, yields.
  rewrite (typed_read_steps fm js this w file (Some JSON_DICT) configDir' d'
             Hmat).
  run_read. rewrite Hexists. simpl. rewrite Hread. simpl.
  rewrite Hparse. simpl. constructed.
Qed.

(** C6.  [read] and [write] of [CustomFileManager] resolve a file name in
    the same way: the extension of the kind is appended only when the name
    does not end with it already.  Resolving is idempotent; [rec.json] and
    [rec] under the kind [JSON] both resolve to [rec.json], not to
    [rec.json.json].  The backend calls of [read] are exactly those of a
    read of the resolved path, the first of them the question whether that
    path is in iCloud, and the one backend call of [write] is on the
    resolved path.  [read] and [write] are the same operations on both
    names, and a file stored as [rec.json] is the file that [read] answers
    with under either name. *)
Theorem extension_appended_once :
  forall (D : Type) (fm : FileManagerAPI D) (js : JSRuntime)
         (this : CustomFileManager) (w : World D) (file : string)
         (type' : option FileType) (configDir' : option bool)
         (payload : Payload),
    let type := default TEXT type' in
    let ext := CustomFileManager.extensionByType type None in
    let path :=
      CustomFileManager.getAbsolutePath fm this (resolved file type)
        (default true configDir') in
    let stored :=
      CustomFileManager.getAbsolutePath fm this "rec.json"
        (default true configDir') in
    ((endsWith file ext = true /\ resolved file type = file) \/
     (endsWith file ext = false /\ resolved file type = file +:+ ext)) /\
    resolved (resolved file type) type = resolved file type /\
    (resolved "rec.json" JSON = "rec.json" /\
     resolved "rec" JSON = "rec.json" /\
     resolved "rec.json" JSON <> "rec.json.json") /\
    (emits (CustomFileManager.read fm js this file type' configDir') w
           (calls_download_first fm (disk w) path) /\
     (exists rest,
         calls_download_first fm (disk w) path
         = CallIsFileStoredIniCloud path :: rest) /\
     Forall (fun c => call_path c = path)
            (calls_download_first fm (disk w) path)) /\
    (exists content,
        emits (CustomFileManager.write fm js this payload (Some file) type'
                 configDir') w
              [CallWriteString path content]) /\
    CustomFileManager.read fm js this "rec.json" (Some JSON) configDir'
    = CustomFileManager.read fm js this "rec" (Some JSON) configDir' /\
    CustomFileManager.write fm js this payload (Some "rec.json") (Some JSON)
      configDir'
    = CustomFileManager.write fm js this payload (Some "rec") (Some JSON)
        configDir' /\
    (forall (text : string) (v : JSValue),
        holds_text fm (disk w) stored text ->
        JSON_parse js text = Returned v ->
        constructs
          (CustomFileManager.read fm js this "rec" (Some JSON) configDir') w
          (okResponse v) [] /\
        constructs
          (CustomFileManager.read fm js this "rec.json" (Some JSON)
             configDir') w
          (okResponse v) []).
Proof.
  intros D fm js this w file type' configDir' payload type ext path stored.
  split; [apply resolved_cases|].
  split; [apply resolved_idempotent|].
  split; [repeat split; discriminate|].
  split; [split; [|split]|split; [|split; [|split]]];
    try reflexivity.
  - subst path ext type.
    unfold calls_download_first, cloud_calls, materialised, pending, resolved.
    unfold_run. simpl.
    set (p := CustomFileManager.getAbsolutePath fm this _ _).
    destruct type' as [[]|]; split_run; try congruence;
      rewrite <- ?app_assoc; reflexivity.
  - unfold calls_download_first, cloud_calls. simpl. eexists. reflexivity.
  - unfold calls_download_first, cloud_calls, materialised, pending.
    destruct (fm_isFileStoredIniCloud fm (disk w) path); simpl;
      [destruct (fm_isFileDownloaded fm (disk w) path); simpl;
       [|destruct (fm_downloadFileFromiCloud fm path (disk w))
           as [[[]|e] d']; simpl]|];
      repeat match goal with
             | |- context [fm_fileExists fm ?d path] =>
                 destruct (fm_fileExists fm d path)
             end;
      repeat constructor.
  - subst path ext type. unfold resolved. unfold_run. simpl.
    set (p := CustomFileManager.getAbsolutePath fm this _ _).
    split_run; eexists; reflexivity.
  - intros text v Hholds Hparse. subst stored.
    split;
      apply (typed_read_of_json fm js this w _ configDir' text v);
      [exact Hholds | exact Hparse | exact Hholds | exact Hparse].
Qed.

(** The file [rec.json], in iCloud with the text [[0]], read under the
    names [rec] and [rec.json]. *)
Lemma extension_appended_once_witness :
  constructs
    (CustomFileManager.read MemFM.api MiniJSON.runtime typedManager "rec"
       (Some JSON) None)
    staleRecord (okResponse (VArr [VNum 0])) [] /\
  constructs
    (CustomFileManager.read MemFM.api MiniJSON.runtime typedManager
       "rec.json" (Some JSON) None)
    staleRecord (okResponse (VArr [VNum 0])) [].
Proof.
  assert (Hholds :
    holds_text MemFM.api (disk staleRecord)
      (CustomFileManager.getAbsolutePath MemFM.api typedManager "rec.json"
         (default true None)) "[0]")
    by holds_by_evaluation
         (snd (fm_downloadFileFromiCloud MemFM.api "/docs/data/rec.json"
                 (disk staleRecord))).
  apply (proj2 (proj2 (proj2 (proj2 (proj2 (proj2 (proj2
           (extension_appended_once _ MemFM.api MiniJSON.runtime typedManager
              staleRecord "rec" (Some JSON) None (PString "x"))))))))
           "[0]" (VArr [VNum 0]) Hholds).
  vm_compute. reflexivity.
Defined.

(** ** Writing *)

(** C7.  [write] of [CustomFileManager] hands a record payload to the
    backend as its [JSON.stringify] text under every kind, [TEXT] included,
    and a string payload under the kind [TEXT] (given or by default) as it
    is.  In both cases it makes the one backend call [writeString], on the
    resolved path, and the outcome of [write] is the outcome of that call. *)
Theorem write_serialises_records :
  forall (D : Type) (fm : FileManagerAPI D) (js : JSRuntime)
         (this : CustomFileManager) (w : World D)
         (file' : option string) (configDir' : option bool),
    let delegated (type : FileType) (content : string) :=
      let path :=
        CustomFileManager.getAbsolutePath fm this
          (resolved (default (filestub this) file') type)
          (default true configDir') in
      let done := fm_writeString fm path content (disk w) in
      (fst done,
       mkWorld (snd done) (heap w) (calls w ++ [CallWriteString path content])
               (console w)) in
    (forall (fields : list (string * JSValue)) (type' : option FileType),
        CustomFileManager.write fm js this (PRecord fields) file' type'
          configDir' w
        = delegated (default TEXT type') (JSON_stringify js (VObj fields))) /\
    (forall text : string,
        CustomFileManager.write fm js this (PString text) file' (Some TEXT)
          configDir' w
        = delegated TEXT text /\
        CustomFileManager.write fm js this (PString text) file' None
          configDir' w
        = delegated TEXT text).
Proof.
  intros D fm js this w file' configDir' delegated. subst delegated.
  split.
  - intros fields type'. unfold resolved. unfold_run. simpl.
    destruct type' as [[]|]; simpl;
      match goal with
      | |- context [fm_writeString fm ?p ?c (disk w)] =>
          destruct (fm_writeString fm p c (disk w)); reflexivity
      end.
  - intros text. unfold resolved. unfold_run. simpl.
    match goal with
    | |- context [fm_writeString fm ?p ?c (disk w)] =>
        destruct (fm_writeString fm p c (disk w)); split; reflexivity
    end.
Qed.

(** ** Reading what is not there *)

(** C5.  Each safe reader of [NewFileManager] returns [notFound()], that is
    status [NOT_FOUND] and payload [null], when the backend has no file at
    the path it resolves its argument to; so does [read] of
    [CustomFileManager], under every kind, when that path is absent from
    the backend. *)
Theorem missing_file_is_not_found :
  forall (D : Type) (fm : FileManagerAPI D) (js : JSRuntime) (w : World D),
    DataResponse.isEmpty notFoundResponse = true /\
    (forall (this : NewFileManager) (filePath : string),
        fm_fileExists fm (disk w) (NewFileManager.mapPath fm this filePath)
        = false ->
        yields (NewFileManager.readS fm this filePath) w notFoundResponse /\
        yields (NewFileManager.readStringS fm this filePath) w
               notFoundResponse /\
        yields (NewFileManager.readImageS fm this filePath) w
               notFoundResponse) /\
    (forall (this : NewFileManager) (filePath : string)
            (autoExtension : option bool),
        fm_fileExists fm (disk w)
          (NewFileManager.mapPath fm this (resolvedJSON filePath autoExtension))
        = false ->
        yields (NewFileManager.readJSONS fm js this filePath autoExtension) w
               notFoundResponse /\
        yields (NewFileManager.readJSONDictS fm js this filePath autoExtension)
               w notFoundResponse) /\
    (forall (this : CustomFileManager) (file : string)
            (type' : option FileType) (configDir' : option bool),
        absent fm (disk w)
          (CustomFileManager.getAbsolutePath fm this
             (resolved file (default TEXT type')) (default true configDir')) ->
        yields (CustomFileManager.read fm js this file type' configDir') w
               notFoundResponse).
Proof.
  intros D fm js w. split; [reflexivity|]. split; [|split].
  - intros this filePath Hmissing.
    repeat split; unfold_run; simpl; rewrite Hmissing; simpl;
      eexists _, _; (split; [reflexivity|]); apply lookup_allocated.
  - intros this filePath autoExtension Hmissing.
    unfold resolvedJSON in Hmissing.
    repeat split; unfold_run; simpl; rewrite Hmissing; simpl;
      eexists _, _; (split; [reflexivity|]); apply lookup_allocated.
  - intros this file type' configDir' [Hmissing Hlocal].
    unfold resolved in Hmissing, Hlocal.
    unfold_run. simpl. rewrite Hlocal. simpl. rewrite Hmissing. simpl.
    eexists _, _. split; [reflexivity|]. apply lookup_allocated.
Qed.

(** Reading [missing] on the in-memory backend without files. *)
Lemma missing_file_is_not_found_witness :
  yields (NewFileManager.readStringS MemFM.api scopedAccessor "missing")
         (MemFM.world []) notFoundResponse /\
  yields (NewFileManager.readJSONDictS MemFM.api MiniJSON.runtime
            scopedAccessor "missing" None)
         (MemFM.world []) notFoundResponse /\
  yields (CustomFileManager.read MemFM.api MiniJSON.runtime typedManager
            "missing" (Some JSON) None)
         (MemFM.world []) notFoundResponse.
Proof.
  pose proof (missing_file_is_not_found _ MemFM.api MiniJSON.runtime
                (MemFM.world [])) as (_ & Hplain & Hjson & Htyped).
  split; [|split].
  - apply (Hplain scopedAccessor "missing"). reflexivity.
  - apply (Hjson scopedAccessor "missing" None). reflexivity.
  - apply (Htyped typedManager "missing" (Some JSON) None).
    split; reflexivity.
Defined.

(** ** Writing, then reading *)

(** C4.  In every world, writing the record [{a: 1}] to [rec] under the
    kind [JSON] and then reading [rec] under the kind [JSON_DICT] returns
    status [OK] with the payload [{a: 1}], on a runtime whose [JSON.parse]
    reads back what its [JSON.stringify] wrote for this record, and on a
    backend whose [writeString] returns and leaves the file holding the
    written text. *)
Theorem write_then_read_round_trip :
  forall (D : Type) (fm : FileManagerAPI D) (js : JSRuntime)
         (this : CustomFileManager) (w : World D),
    let path := CustomFileManager.getAbsolutePath fm this "rec.json" true in
    let text := JSON_stringify js (VObj a_is_1) in
    JSON_parse js text = Returned (VObj a_is_1) ->
    fst (fm_writeString fm path text (disk w)) = Returned tt ->
    holds_text fm (snd (fm_writeString fm path text (disk w))) path text ->
    yields
      (CustomFileManager.write fm js this (PRecord a_is_1) (Some "rec")
         (Some JSON) None;;
       CustomFileManager.read fm js this "rec" (Some JSON_DICT) None)
      w (okResponse (VObj a_is_1)).
Proof.
  intros D fm js this w path text Hparse Hwritten Hholds.
  subst path text. unfold CustomFileManager.getAbsolutePath in *.
  destruct Hholds as (_ & d' & Hmat & Hexists & Hread).
  unfold materialised, pending in Hmat.
  unfold_run. unfold CustomFileManager.getAbsolutePath. simpl.
  change ("rec" +:+ "." +:+ "json") with "rec.json".
  destruct (fm_writeString fm _ _ (disk w)) as [o d1]. simpl in *. subst o.
  destruct (fm_isFileStoredIniCloud fm d1 _); simpl in *;
    [destruct (fm_isFileDownloaded fm d1 _); simpl in *;
     [|destruct (fm_downloadFileFromiCloud fm _ d1) as [[[]|e] d2];
       simpl in *; [|discriminate Hmat]]|];
    injection Hmat as ->;
    rewrite Hexists; simpl; rewrite Hread; simpl; rewrite Hparse; simpl;
    eexists _, _; (split; [reflexivity|]); apply lookup_allocated.
Qed.

(** The in-memory backend keeps what [writeString] wrote, in every state:
    it meets what the round trip asks of a backend. *)
Lemma MemFM_holds_written (d : gmap string MemFile) (path text : string) :
  holds_text MemFM.api (snd (fm_writeString MemFM.api path text d)) path text.
Proof.
  unfold holds_text, materialised, pending. simpl.
  unfold MemFM.contents. rewrite !lookup_insert_eq. simpl.
  split; [reflexivity|]. eexists. split; [reflexivity|].
  rewrite !lookup_insert_eq. split; reflexivity.
Qed.

(** The round trip on the in-memory backend, with the [MiniJSON] runtime,
    over a file that held another text before. *)
Lemma write_then_read_round_trip_witness :
  yields
    (CustomFileManager.write MemFM.api MiniJSON.runtime typedManager
       (PRecord a_is_1) (Some "rec") (Some JSON) None;;
     CustomFileManager.read MemFM.api MiniJSON.runtime typedManager "rec"
       (Some JSON_DICT) None)
    staleRecord (okResponse (VObj a_is_1)).
Proof.
  apply (write_then_read_round_trip _ MemFM.api MiniJSON.runtime typedManager
           staleRecord).
  - vm_compute. reflexivity.
  - reflexivity.
  - split; [vm_compute; reflexivity|].
    exists (snd (fm_writeString MemFM.api "/docs/data/rec.json"
                   (MiniJSON.stringify (VObj a_is_1)) (disk staleRecord))).
    split; [vm_compute; reflexivity|].
    split; vm_compute; reflexivity.
Defined.

(** ** The order of the backend calls *)

Lemma calls_exists_first_ordered {D : Type} (fm : FileManagerAPI D) (d : D)
    (path : string) (raw : Call) :
  phase raw = 3 -> exists_download_read (calls_exists_first fm d path raw) = true.
Proof.
  intros Hraw.
  unfold exists_download_read, calls_exists_first, cloud_calls, materialised,
    pending.
  destruct (fm_fileExists fm d path); [|reflexivity].
  destruct (fm_isFileStoredIniCloud fm d path); simpl;
    [destruct (fm_isFileDownloaded fm d path); simpl;
     [|destruct (fm_downloadFileFromiCloud fm path d) as [[[]|e] d']; simpl]|];
    rewrite ?Hraw; reflexivity.
Qed.

(** C3, as amended.  The five safe readers of [NewFileManager] call the
    backend in the order existence check, questions about iCloud, download
    (only for a file that is in iCloud and not downloaded), raw read, and
    stop after the existence check when the file does not exist.  [read] of
    [CustomFileManager] asks about iCloud and downloads first, then checks
    existence, then reads. *)
Theorem safe_read_call_order :
  forall (D : Type) (fm : FileManagerAPI D) (js : JSRuntime) (w : World D),
    (forall (this : NewFileManager) (filePath : string)
            (autoExtension : option bool),
        let path := NewFileManager.mapPath fm this filePath in
        let jsonPath :=
          NewFileManager.mapPath fm this (resolvedJSON filePath autoExtension)
        in
        emits (NewFileManager.readS fm this filePath) w
              (calls_exists_first fm (disk w) path (CallRead path)) /\
        emits (NewFileManager.readStringS fm this filePath) w
              (calls_exists_first fm (disk w) path (CallReadString path)) /\
        emits (NewFileManager.readImageS fm this filePath) w
              (calls_exists_first fm (disk w) path (CallReadImage path)) /\
        emits (NewFileManager.readJSONS fm js this filePath autoExtension) w
              (calls_exists_first fm (disk w) jsonPath
                 (CallReadString jsonPath)) /\
        emits (NewFileManager.readJSONDictS fm js this filePath autoExtension)
              w
              (calls_exists_first fm (disk w) jsonPath
                 (CallReadString jsonPath))) /\
    (forall (d : D) (path : string),
        exists_download_read
          (calls_exists_first fm d path (CallRead path)) = true /\
        exists_download_read
          (calls_exists_first fm d path (CallReadString path)) = true /\
        exists_download_read
          (calls_exists_first fm d path (CallReadImage path)) = true) /\
    (forall (this : CustomFileManager) (file : string)
            (type' : option FileType) (configDir' : option bool),
        emits (CustomFileManager.read fm js this file type' configDir') w
              (calls_download_first fm (disk w)
                 (CustomFileManager.getAbsolutePath fm this
                    (resolved file (default TEXT type'))
                    (default true configDir')))).
Proof.
  intros D fm js w. split; [|split].
  - intros this filePath autoExtension path jsonPath.
    subst path jsonPath. unfold resolvedJSON.
    repeat split;
      unfold calls_exists_first, cloud_calls, materialised, pending;
      unfold_run; split_run; try congruence;
      rewrite <- ?app_assoc; reflexivity.
  - intros d path.
    repeat split; apply calls_exists_first_ordered; reflexivity.
  - intros this file type' configDir'.
    unfold calls_download_first, cloud_calls, materialised, pending, resolved.
    unfold_run. simpl.
    set (p := CustomFileManager.getAbsolutePath fm this _ _).
    destruct type' as [[]|]; split_run; try congruence;
      rewrite <- ?app_assoc; reflexivity.
Qed.

(** The calls of both managers on a note that is in iCloud and not
    downloaded. *)
Example scoped_read_of_cloud_note :
  emits (NewFileManager.readStringS MemFM.api scopedAccessor "note.txt")
        cloudNote
        [CallFileExists "/docs/data/note.txt";
         CallIsFileStoredIniCloud "/docs/data/note.txt";
         CallIsFileDownloaded "/docs/data/note.txt";
         CallDownloadFileFromiCloud "/docs/data/note.txt";
         CallReadString "/docs/data/note.txt"].
Proof. unfold emits. vm_compute. reflexivity. Qed.

Example typed_read_of_cloud_note :
  emits (CustomFileManager.read MemFM.api MiniJSON.runtime typedManager "note"
           (Some TEXT) None)
        cloudNote
        [CallIsFileStoredIniCloud "/docs/data/note.txt";
         CallIsFileDownloaded "/docs/data/note.txt";
         CallDownloadFileFromiCloud "/docs/data/note.txt";
         CallFileExists "/docs/data/note.txt";
         CallReadString "/docs/data/note.txt"].
Proof. unfold emits. vm_compute. reflexivity. Qed.

(** C3 as stated fails for [read] of [CustomFileManager]: for a file that
    is in iCloud and not downloaded, the download is called before the
    existence check. *)
Lemma typed_read_downloads_before_existence_check :
  ~ (exists tr,
        emits (CustomFileManager.read MemFM.api MiniJSON.runtime typedManager
                 "note" (Some TEXT) None)
              cloudNote tr /\
        exists_download_read tr = true).
Proof.
  intros (tr & Hemits & Hordered).
  unfold emits in Hemits. vm_compute in Hemits. subst tr.
  discriminate Hordered.
Qed.

(** ** Reading JSON that is not a record *)

Lemma not_an_object_rejected (v : JSValue) :
  not_an_object v = true ->
  negb (typeof v =? "object")%string || isArray v || isNull v = true.
Proof. destruct v; simpl; intros H; first [reflexivity | discriminate H]. Qed.

(** C2, as amended.  For an existing file whose text parses as a JSON
    array, scalar or [null], [read] of [CustomFileManager] under the kind
    [JSON_DICT] returns status [ERROR] with payload [null], and
    [readJSONDictS] of [NewFileManager] returns status [OK] with payload
    [null]; each writes one warning to the console, and neither returns the
    parsed value. *)
Theorem non_object_json_is_not_returned :
  forall (D : Type) (fm : FileManagerAPI D) (js : JSRuntime) (w : World D)
         (text : string) (v : JSValue),
    JSON_parse js text = Returned v ->
    not_an_object v = true ->
    (forall (this : CustomFileManager) (file : string)
            (configDir' : option bool),
        holds_text fm (disk w)
          (CustomFileManager.getAbsolutePath fm this (resolved file JSON_DICT)
             (default true configDir')) text ->
        constructs
          (CustomFileManager.read fm js this file (Some JSON_DICT) configDir')
          w errorResponse [LogWarn "read: parsed data not a dictionary."]) /\
    (forall (this : NewFileManager) (filePath : string)
            (autoExtension : option bool),
        holds_text fm (disk w)
          (NewFileManager.mapPath fm this (resolvedJSON filePath autoExtension))
          text ->
        constructs
          (NewFileManager.readJSONDictS fm js this filePath autoExtension)
          w (okResponse VNull)
          [LogWarn ("readJSONDict: data not a dictionary.(" +:+ typeof v
                    +:+ ")")]).
Proof.
  intros D fm js w text v Hparse Hshape.
  apply not_an_object_rejected in Hshape.
  split.
  - intros this file configDir' (_ & d' & Hmat & Hexists & Hread).
    unfold materialised, pending, resolved in *.
    unfold_run. simpl in *.
    set (p := CustomFileManager.getAbsolutePath fm this _ _) in *.
    destruct (fm_isFileStoredIniCloud fm (disk w) p); simpl in *;
      [destruct (fm_isFileDownloaded fm (disk w) p); simpl in *;
       [|destruct (fm_downloadFileFromiCloud fm p (disk w)) as [[[]|e] d2];
         simpl in *; [|discriminate Hmat]]|];
      injection Hmat as ->;
      rewrite Hexists; simpl; rewrite Hread; simpl; rewrite Hparse; simpl;
      rewrite Hshape; simpl;
      eexists _, _; (split; [reflexivity|]); simpl;
      (split; [apply lookup_allocated | reflexivity]).
  - intros this filePath autoExtension (Hexists & d' & Hmat & _ & Hread).
    unfold materialised, pending, resolvedJSON in *.
    unfold_run. simpl in *.
    set (p := NewFileManager.mapPath fm this _) in *.
    rewrite Hexists. simpl.
    destruct (fm_isFileStoredIniCloud fm (disk w) p); simpl in *;
      [destruct (fm_isFileDownloaded fm (disk w) p); simpl in *;
       [|destruct (fm_downloadFileFromiCloud fm p (disk w)) as [[[]|e] d2];
         simpl in *; [|discriminate Hmat]]|];
      injection Hmat as ->;
      rewrite Hread; simpl; rewrite Hparse; simpl;
      rewrite Hshape; simpl;
      eexists _, _; (split; [reflexivity|]); simpl;
      (split; [apply lookup_allocated | reflexivity]).
Qed.

(** Both readers on a file holding the array [[1,2,3]]. *)
Lemma non_object_json_is_not_returned_witness :
  constructs
    (CustomFileManager.read MemFM.api MiniJSON.runtime typedManager "arr"
       (Some JSON_DICT) None)
    arrayFile errorResponse [LogWarn "read: parsed data not a dictionary."] /\
  constructs
    (NewFileManager.readJSONDictS MemFM.api MiniJSON.runtime scopedAccessor
       "arr" None)
    arrayFile (okResponse VNull)
    [LogWarn "readJSONDict: data not a dictionary.(object)"].
Proof.
  pose proof (non_object_json_is_not_returned _ MemFM.api MiniJSON.runtime
                arrayFile "[1,2,3]" (VArr [VNum 1; VNum 2; VNum 3])) as H.
  destruct H as [Htyped Hscoped];
    [vm_compute; reflexivity | reflexivity |].
  split.
  - apply (Htyped typedManager "arr" None).
    split; [vm_compute; reflexivity|].
    exists (disk arrayFile).
    split; [vm_compute; reflexivity|].
    split; vm_compute; reflexivity.
  - apply (Hscoped scopedAccessor "arr" None).
    split; [vm_compute; reflexivity|].
    exists (disk arrayFile).
    split; [vm_compute; reflexivity|].
    split; vm_compute; reflexivity.
Defined.

(** C2 as stated fails for [readJSONDictS]: on a file holding the array
    [[1,2,3]] its result does not have the status [ERROR]. *)
Lemma readJSONDictS_array_is_not_an_error :
  ~ yields
      (NewFileManager.readJSONDictS MemFM.api MiniJSON.runtime scopedAccessor
         "arr" None)
      arrayFile errorResponse.
Proof.
  intros H. apply yields_run in H as (r & Hr & Hobj).
  assert (Hfirst :
    fst (NewFileManager.readJSONDictS MemFM.api MiniJSON.runtime
           scopedAccessor "arr" None arrayFile) = Returned 0)
    by (vm_compute; reflexivity).
  assert (Hsame : Returned r = Returned 0)
    by exact (eq_trans (eq_sym Hr) Hfirst).
  injection Hsame as ->.
  assert (Hok :
    heap (snd (NewFileManager.readJSONDictS MemFM.api MiniJSON.runtime
                 scopedAccessor "arr" None arrayFile)) !! 0
    = Some (okResponse VNull))
    by (vm_compute; reflexivity).
  assert (Hclash : Some errorResponse = Some (okResponse VNull))
    by exact (eq_trans (eq_sym Hobj) Hok).
  discriminate Hclash.
Qed.

(** ** Exceptions in the safe readers *)

(** [readSmartWrapper] has no handler: on an existing file, what its reader
    [fn] throws is thrown to the caller. *)
Lemma readSmartWrapper_propagates {D : Type} (fm : FileManagerAPI D)
    (this : NewFileManager) (w : World D) (filePath : string)
    (fn : string -> M D JSValue) (d' : D) (e : Exn) :
  fm_fileExists fm (disk w) (NewFileManager.mapPath fm this filePath) = true ->
  materialised fm (disk w) (NewFileManager.mapPath fm this filePath)
  = Some d' ->
  (forall w1, disk w1 = d' -> throws (fn filePath) w1 e) ->
  throws (NewFileManager.readSmartWrapper fm this filePath fn) w e.
Proof.
  intros Hexists Hmat Hfn.
  unfold materialised, pending in Hmat.
  unfold_run. simpl. rewrite Hexists. simpl.
  set (p := NewFileManager.mapPath fm this filePath) in *.
  destruct (fm_isFileStoredIniCloud fm (disk w) p); simpl in *;
    [destruct (fm_isFileDownloaded fm (disk w) p); simpl in *;
     [|destruct (fm_downloadFileFromiCloud fm p (disk w)) as [[[]|e'] d2];
       simpl in *; [|discriminate Hmat]]|];
    injection Hmat as ->;
    match goal with
    | |- context [fn filePath ?w1] =>
        destruct (Hfn w1 eq_refl) as [w2 ->]; eexists; reflexivity
    end.
Qed.

(** [read] of [CustomFileManager] has a handler around the raw read and the
    parsing: on an existing file it returns, with status [OK] or [ERROR]. *)
Lemma typed_read_absorbs {D : Type} (fm : FileManagerAPI D) (js : JSRuntime)
    (this : CustomFileManager) (w : World D) (file : string)
    (type' : option FileType) (configDir' : option bool) (d' : D) :
  let path :=
    CustomFileManager.getAbsolutePath fm this
      (resolved file (default TEXT type')) (default true configDir') in
  materialised fm (disk w) path = Some d' ->
  fm_fileExists fm d' path = true ->
  exists obj,
    yields (CustomFileManager.read fm js this file type' configDir') w obj /\
    (status obj = OK \/ obj = errorResponse).
Proof.
  intros path Hmat Hexists. subst path.
  unfold materialised, pending, resolved in *.
  unfold_run. simpl in *.
  set (p := CustomFileManager.getAbsolutePath fm this _ _) in *.
  destruct (fm_isFileStoredIniCloud fm (disk w) p); simpl in *;
    [destruct (fm_isFileDownloaded fm (disk w) p); simpl in *;
     [|destruct (fm_downloadFileFromiCloud fm p (disk w)) as [[[]|e] d2];
       simpl in *; [|discriminate Hmat]]|];
    injection Hmat as ->; rewrite Hexists; simpl;
    destruct (fm_readString fm d' p) as [text|e]; simpl;
    destruct type' as [[]|]; simpl;
    try destruct (JSON_parse js text) as [v|e]; simpl;
    try destruct (negb (typeof v =? "object")%string || isArray v || isNull v);
    simpl;
    eexists; (split; [eexists _, _; split;
                      [reflexivity | apply lookup_allocated]|]);
    simpl; auto.
Qed.

(** C1, at two failing inputs.  [bad.json] exists and holds the text [{]:
    [readJSONS] of [NewFileManager] throws the [SyntaxError] of [JSON.parse]
    to its caller, where [read] of [CustomFileManager] under the kind
    [JSON] logs it and returns status [ERROR].  [far.txt] exists in iCloud
    and its download does not bring it to the device: [readStringS] throws
    the exception of the backend read to its caller, where [read] of
    [CustomFileManager] logs it and returns status [ERROR]. *)
Theorem safe_readers_throw_on_existing_files :
  (fm_fileExists MemFM.api (disk malformedFile) "/docs/data/bad.json" = true /\
   throws (NewFileManager.readJSONS MemFM.api MiniJSON.runtime scopedAccessor
             "bad" None)
          malformedFile MiniJSON.syntaxError /\
   constructs
     (CustomFileManager.read MemFM.api MiniJSON.runtime typedManager "bad"
        (Some JSON) None)
     malformedFile errorResponse [LogError MiniJSON.syntaxError]) /\
  (fm_fileExists MemFM.api (disk unreachableNote) "/docs/data/far.txt" = true /\
   throws (NewFileManager.readStringS MemFM.api scopedAccessor "far.txt")
          unreachableNote (MemFM.notDownloadedError "/docs/data/far.txt") /\
   constructs
     (CustomFileManager.read MemFM.api MiniJSON.runtime typedManager "far"
        (Some TEXT) None)
     unreachableNote errorResponse
     [LogError (MemFM.notDownloadedError "/docs/data/far.txt")]).
Proof.
  split.
  - split; [vm_compute; reflexivity|]. split.
    + apply throws_run. vm_compute. reflexivity.
    + apply constructs_run. exists 0.
      split; [vm_compute; reflexivity|].
      split; vm_compute; reflexivity.
  - split; [vm_compute; reflexivity|]. split.
    + apply throws_run. vm_compute. reflexivity.
    + apply constructs_run. exists 0.
      split; [vm_compute; reflexivity|].
      split; vm_compute; reflexivity.
Qed.

(** * More properties *)

(** ** Responses, once made *)

Lemma stored_message (m : option string) :
  (if DataResponse.truthy m then m else None) <> Some EmptyString.
Proof. destruct m as [[|c t]|]; simpl; discriminate. Qed.

Lemma stored_message_kept (m : option string) :
  m <> Some EmptyString -> (if DataResponse.truthy m then m else None) = m.
Proof. destruct m as [[|c t]|]; simpl; congruence. Qed.

Lemma lookup_second (objs : list DataResponse) (a b : DataResponse) :
  ((objs ++ [a]) ++ [b]) !! List.length objs = Some a /\
  ((objs ++ [a]) ++ [b]) !! S (List.length objs) = Some b.
Proof.
  split.
  - rewrite lookup_older by (rewrite length_app; simpl; lia).
    apply lookup_allocated.
  - replace (S (List.length objs)) with (List.length (objs ++ [a]))
      by (rewrite length_app; simpl; lia).
    apply lookup_allocated.
Qed.

Lemma lookup_kept_twice (objs : list DataResponse) (a b obj : DataResponse)
    (r : Ref) :
  objs !! r = Some obj -> ((objs ++ [a]) ++ [b]) !! r = Some obj.
Proof.
  intros H. pose proof (lookup_lt_Some _ _ _ H) as Hr.
  rewrite !lookup_app_l; [exact H | exact Hr | rewrite length_app; lia].
Qed.

(** Every call that makes a response returns a reference that was not in
    use, to an object placed after the existing ones, which stay as they
    are; it leaves the files and the log of backend calls alone.  A call
    that throws changes nothing. *)
Theorem responses_are_never_changed :
  forall (D : Type) (w : World D) (c : ResponseCall),
    match perform c w with
    | (Returned r, w') =>
        r = List.length (heap w) /\
        (exists obj, heap w' = heap w ++ [obj]) /\
        disk w' = disk w /\ calls w' = calls w
    | (Thrown _, w') => w' = w
    end.
Proof.
  intros D w c.
  destruct c as [p s m|s m|m|m|m|p m|resp s|[resp|v]]; simpl;
    unfold DataResponse.notFound, DataResponse.error, DataResponse.apiError,
      DataResponse.empty, DataResponse.ok, DataResponse.fromDataResponse,
      DataResponse.new, bind, load, console_warn, alloc, ret;
    try (destruct (DataResponse.truthy m)); simpl;
    try (destruct (heap w !! resp) as [obj|] eqn:Hobj); simpl;
    first [ reflexivity | repeat split; eauto ].
Qed.

Lemma heap_after_empty {D : Type} (w : World D) (s : option DataStatus)
    (m : option string) :
  heap (snd (DataResponse.empty s m w))
  = heap w ++ [{| data := VNull; status := default OK s;
                  msg := if DataResponse.truthy m then m else None |}].
Proof.
  unfold DataResponse.empty, DataResponse.new, bind, console_warn, alloc, ret.
  destruct (DataResponse.truthy m); reflexivity.
Qed.

(** The constructor never stores the empty string as a message, and no
    method changes a stored message: a heap without empty messages stays
    one under every call that makes a response. *)
Theorem stored_messages_are_never_empty :
  forall (D : Type) (w : World D) (c : ResponseCall),
    no_empty_message (heap w) ->
    no_empty_message (heap (snd (perform c w))).
Proof.
  intros D w c Hwf. unfold no_empty_message in *.
  assert (Hgrow : forall p s m,
    Forall (fun obj => msg obj <> Some EmptyString)
      (heap w ++ [{| data := p; status := s;
                     msg := if DataResponse.truthy m then m else None |}])).
  { intros p s m. apply Forall_app. split; [exact Hwf|].
    constructor; [apply stored_message | constructor]. }
  destruct c as [p s m|s m|m|m|m|p m|resp s|[resp|v]]; simpl.
  - apply Hgrow.
  - rewrite heap_after_empty. apply Hgrow.
  - unfold DataResponse.notFound. rewrite heap_after_empty. apply Hgrow.
  - unfold DataResponse.error. rewrite heap_after_empty. apply Hgrow.
  - unfold DataResponse.apiError. rewrite heap_after_empty. apply Hgrow.
  - apply Hgrow.
  - unfold DataResponse.fromDataResponse, bind, load.
    destruct (heap w !! resp) as [obj|]; [apply Hgrow | exact Hwf].
  - unfold DataResponse.fromDataResponse, bind, load.
    destruct (heap w !! resp) as [obj|]; [apply Hgrow | exact Hwf].
  - apply (Hgrow v CACHED None).
Qed.

(** A response with the empty string as message, asked for in a world
    without responses. *)
Lemma stored_messages_are_never_empty_witness :
  no_empty_message (heap (blank : World unit)) /\
  no_empty_message
    (heap (snd (perform (OfOk (VNum 1) (Some EmptyString)) blank))).
Proof.
  assert (H : no_empty_message (heap (blank : World unit)))
    by (simpl; constructor).
  split; [exact H|].
  apply (stored_messages_are_never_empty unit blank
           (OfOk (VNum 1) (Some EmptyString)) H).
Defined.

(** [fromDataResponse] on any response whose message is not the empty
    string carries payload and message over and sets the status; deriving
    again from the derived response gives the fields that deriving from the
    first one gives, and all three objects exist side by side. *)
Theorem fromDataResponse_composes :
  forall (D : Type) (w : World D) (r : Ref) (obj : DataResponse)
         (s1 s2 : DataStatus),
    heap w !! r = Some obj ->
    msg obj <> Some EmptyString ->
    exists r1 r2 w1 w2,
      DataResponse.fromDataResponse r s1 w = (Returned r1, w1) /\
      DataResponse.fromDataResponse r1 s2 w1 = (Returned r2, w2) /\
      heap w2 !! r = Some obj /\
      heap w2 !! r1 = Some (with_status obj s1) /\
      heap w2 !! r2 = Some (with_status obj s2).
Proof.
  intros D w r obj s1 s2 Hobj Hmsg.
  exists (List.length (heap w)), (S (List.length (heap w))),
    (mkWorld (disk w) (heap w ++ [with_status obj s1]) (calls w) (console w)),
    (mkWorld (disk w) ((heap w ++ [with_status obj s1]) ++ [with_status obj s2])
       (calls w) (console w)).
  unfold DataResponse.fromDataResponse, DataResponse.new, bind, load, alloc.
  simpl. rewrite Hobj. simpl. rewrite (stored_message_kept _ Hmsg).
  split; [reflexivity|].
  rewrite lookup_allocated. simpl. rewrite (stored_message_kept _ Hmsg).
  rewrite length_app. simpl.
  replace (List.length (heap w) + 1) with (S (List.length (heap w))) by lia.
  split; [reflexivity|].
  split; [apply lookup_kept_twice; exact Hobj|].
  apply lookup_second.
Qed.

(** An error response with a message, derived twice. *)
Lemma fromDataResponse_composes_witness :
  exists r1 r2 w1 w2,
    DataResponse.fromDataResponse 0 OFFLINE
      (mkWorld tt [mkDataResponse VNull ERROR (Some "down")] [] [])
    = (Returned r1, w1) /\
    DataResponse.fromDataResponse r1 CACHED w1 = (Returned r2, w2) /\
    heap w2 !! 0 = Some (mkDataResponse VNull ERROR (Some "down")) /\
    heap w2 !! r1 = Some (mkDataResponse VNull OFFLINE (Some "down")) /\
    heap w2 !! r2 = Some (mkDataResponse VNull CACHED (Some "down")).
Proof.
  apply (fromDataResponse_composes unit
           (mkWorld tt [mkDataResponse VNull ERROR (Some "down")] [] []) 0
           (mkDataResponse VNull ERROR (Some "down")) OFFLINE CACHED).
  - reflexivity.
  - discriminate.
Defined.

(** [cached] wraps a value that is not a response with the status
    [CACHED] and no message.  Of a response it makes a new one with the
    same payload and message and the status [CACHED], whatever the status
    was; applied again it gives the same fields again, and the response it
    started from is kept. *)
Theorem cached_marks_without_nesting :
  forall (D : Type) (w : World D) (v : JSValue) (r : Ref)
         (obj : DataResponse),
    heap w !! r = Some obj ->
    msg obj <> Some EmptyString ->
    constructs (DataResponse.cached (Plain v)) w
               {| data := v; status := CACHED; msg := None |} [] /\
    exists r1 r2 w1 w2,
      DataResponse.cached (Instance r) w = (Returned r1, w1) /\
      DataResponse.cached (Instance r1) w1 = (Returned r2, w2) /\
      heap w2 !! r = Some obj /\
      heap w2 !! r1 = Some (with_status obj CACHED) /\
      heap w2 !! r2 = Some (with_status obj CACHED).
Proof.
  intros D w v r obj Hobj Hmsg. split.
  - apply constructs_alloc.
  - exists (List.length (heap w)), (S (List.length (heap w))),
      (mkWorld (disk w) (heap w ++ [with_status obj CACHED]) (calls w)
         (console w)),
      (mkWorld (disk w)
         ((heap w ++ [with_status obj CACHED]) ++ [with_status obj CACHED])
         (calls w) (console w)).
    unfold DataResponse.cached, DataResponse.fromDataResponse,
      DataResponse.new, bind, load, alloc.
    simpl. rewrite Hobj. simpl. rewrite (stored_message_kept _ Hmsg).
    split; [reflexivity|].
    rewrite lookup_allocated. simpl. rewrite (stored_message_kept _ Hmsg).
    rewrite length_app. simpl.
    replace (List.length (heap w) + 1) with (S (List.length (heap w))) by lia.
    split; [reflexivity|].
    split; [apply lookup_kept_twice; exact Hobj|].
    apply lookup_second.
Qed.

(** A value, and an [OK] response without message, cached. *)
Lemma cached_marks_without_nesting_witness :
  constructs (DataResponse.cached (Plain (VStr "data")))
             (mkWorld tt [mkDataResponse (VStr "data") OK None] [] [])
             {| data := VStr "data"; status := CACHED; msg := None |} [] /\
  exists r1 r2 w1 w2,
    DataResponse.cached (Instance 0)
      (mkWorld tt [mkDataResponse (VStr "data") OK None] [] [])
    = (Returned r1, w1) /\
    DataResponse.cached (Instance r1) w1 = (Returned r2, w2) /\
    heap w2 !! 0 = Some (mkDataResponse (VStr "data") OK None) /\
    heap w2 !! r1 = Some (mkDataResponse (VStr "data") CACHED None) /\
    heap w2 !! r2 = Some (mkDataResponse (VStr "data") CACHED None).
Proof.
  apply (cached_marks_without_nesting unit
           (mkWorld tt [mkDataResponse (VStr "data") OK None] [] [])
           (VStr "data") 0 (mkDataResponse (VStr "data") OK None)).
  - reflexivity.
  - discriminate.
Defined.


(** ** The extension table, read backwards *)

(** For every extension that [typeByExtension] maps, [extensionByType] of
    the kind it maps to is this extension again, with the dot in front
    unless the dot is omitted. *)
Theorem extensionByType_inverts_typeByExtension :
  forall (extension : string) (k : FileType),
    CustomFileManager.typeByExtension extension = Returned k ->
    CustomFileManager.extensionByType k (Some true) = extension /\
    CustomFileManager.extensionByType k None = "." +:+ extension /\
    CustomFileManager.extensionByType k (Some false) = "." +:+ extension.
Proof.
  intros extension k. unfold CustomFileManager.typeByExtension.
  destruct (String.eqb_spec extension "txt") as [->|_];
    [intros H; injection H as <-; repeat split|].
  destruct (String.eqb_spec extension "json") as [->|_];
    [intros H; injection H as <-; repeat split|].
  destruct (String.eqb_spec extension "log") as [->|_];
    [intros H; injection H as <-; repeat split|].
  discriminate.
Qed.

(** The extension [log]. *)
Lemma extensionByType_inverts_typeByExtension_witness :
  CustomFileManager.extensionByType LOG (Some true) = "log" /\
  CustomFileManager.extensionByType LOG None = "." +:+ "log" /\
  CustomFileManager.extensionByType LOG (Some false) = "." +:+ "log".
Proof.
  apply (extensionByType_inverts_typeByExtension "log" LOG). reflexivity.
Defined.

(** ** What [read] of [CustomFileManager] answers *)

(** On an existing file, [read] of [CustomFileManager] under [TEXT], [LOG]
    or [OTHER] returns [OK] with the text as it is, parsed or not; under
    [JSON] it returns [OK] with whatever the text parses to, an array, a
    scalar or [null] included; under [JSON_DICT] it returns [OK] with the
    record the text parses to.  Nothing is written to the console. *)
Theorem typed_read_returns_content :
  forall (D : Type) (fm : FileManagerAPI D) (js : JSRuntime)
         (this : CustomFileManager) (w : World D) (file : string)
         (type : FileType) (configDir' : option bool) (text : string),
    holds_text fm (disk w)
      (CustomFileManager.getAbsolutePath fm this (resolved file type)
         (default true configDir')) text ->
    (textual type = true ->
     constructs (CustomFileManager.read fm js this file (Some type) configDir')
                w (okResponse (VStr text)) []) /\
    (forall v : JSValue,
        type = JSON -> JSON_parse js text = Returned v ->
        constructs
          (CustomFileManager.read fm js this file (Some type) configDir') w
          (okResponse v) []) /\
    (forall fields : list (string * JSValue),
        type = JSON_DICT -> JSON_parse js text = Returned (VObj fields) ->
        constructs
          (CustomFileManager.read fm js this file (Some type) configDir') w
          (okResponse (VObj fields)) []).
Proof.
  intros D fm js this w file type configDir' text Hholds.
  split; [|split].
  - intros Hkind.
    apply (typed_read_of_text fm js this w file (Some type)); assumption.
  - intros v -> Hparse. apply (typed_read_of_json fm js this w file _ text);
      assumption.
  - intros fields -> Hparse.
    apply (typed_read_of_dictionary fm js this w file _ text); assumption.
Qed.

(** The file holding [[1,2,3]], read under [JSON]. *)
Lemma typed_read_returns_content_witness :
  constructs
    (CustomFileManager.read MemFM.api MiniJSON.runtime typedManager "arr"
       (Some JSON) None)
    arrayFile (okResponse (VArr [VNum 1; VNum 2; VNum 3])) [].
Proof.
  assert (Hholds :
    holds_text MemFM.api (disk arrayFile)
      (CustomFileManager.getAbsolutePath MemFM.api typedManager
         (resolved "arr" JSON) (default true None)) "[1,2,3]")
    by holds_by_evaluation (disk arrayFile).
  apply (proj1 (proj2 (typed_read_returns_content _ MemFM.api MiniJSON.runtime
                         typedManager arrayFile "arr" JSON None "[1,2,3]"
                         Hholds))).
  - reflexivity.
  - vm_compute. reflexivity.
Defined.

(** When the file exists, whatever the raw read throws, under every kind,
    and whatever [JSON.parse] throws, under the two JSON kinds, is written
    to the console with [console.error], and [read] returns [ERROR]
    without payload and without message. *)
Theorem typed_read_reports_failures :
  forall (D : Type) (fm : FileManagerAPI D) (js : JSRuntime)
         (this : CustomFileManager) (w : World D) (file : string)
         (type : FileType) (configDir' : option bool) (d' : D) (e : Exn),
    let path :=
      CustomFileManager.getAbsolutePath fm this (resolved file type)
        (default true configDir') in
    materialised fm (disk w) path = Some d' ->
    fm_fileExists fm d' path = true ->
    fm_readString fm d' path = Thrown e \/
    (parsed type = true /\
     exists text,
       fm_readString fm d' path = Returned text /\
       JSON_parse js text = Thrown e) ->
    constructs (CustomFileManager.read fm js this file (Some type) configDir')
               w errorResponse [LogError e].
Proof.
  intros D fm js this w file type configDir' d' e path Hmat Hexists Hfails.
  subst path.
  unfold constructs, yields.
  rewrite (typed_read_steps fm js this w file (Some type) configDir' d' Hmat).
  run_read. rewrite Hexists. simpl.
  destruct Hfails as [Hread|(Hkind & text & Hread & Hparse)];
    rewrite Hread; simpl.
  - constructed.
  - destruct type; simpl in *; try discriminate Hkind;
      rewrite Hparse; simpl; constructed.
Qed.

(** The file holding [{], read under [JSON_DICT]. *)
Lemma typed_read_reports_failures_witness :
  constructs
    (CustomFileManager.read MemFM.api MiniJSON.runtime typedManager "bad"
       (Some JSON_DICT) None)
    malformedFile errorResponse [LogError MiniJSON.syntaxError].
Proof.
  apply (typed_read_reports_failures _ MemFM.api MiniJSON.runtime typedManager
           malformedFile "bad" JSON_DICT None (disk malformedFile)
           MiniJSON.syntaxError).
  - vm_compute. reflexivity.
  - vm_compute. reflexivity.
  - right. split; [reflexivity|]. exists "{".
    split; vm_compute; reflexivity.
Defined.

(** Unless a pending download throws, [read] of [CustomFileManager] returns
    a response: [notFound()] when the file does not exist after the
    download, and otherwise one with status [OK] or the response of
    [error()]. *)
Theorem typed_read_always_answers :
  forall (D : Type) (fm : FileManagerAPI D) (js : JSRuntime)
         (this : CustomFileManager) (w : World D) (file : string)
         (type' : option FileType) (configDir' : option bool) (d' : D),
    let path :=
      CustomFileManager.getAbsolutePath fm this
        (resolved file (default TEXT type')) (default true configDir') in
    materialised fm (disk w) path = Some d' ->
    exists obj,
      yields (CustomFileManager.read fm js this file type' configDir') w obj /\
      if fm_fileExists fm d' path
      then status obj = OK \/ obj = errorResponse
      else obj = notFoundResponse.
Proof.
  intros D fm js this w file type' configDir' d' path Hmat. subst path.
  unfold constructs, yields.
  rewrite (typed_read_steps fm js this w file type' configDir' d' Hmat).
  run_read.
  destruct (fm_fileExists fm d' _); simpl.
  - destruct (fm_readString fm d' _) as [text|e]; simpl;
      destruct type' as [[]|]; simpl;
      try destruct (JSON_parse js text) as [v|e]; simpl;
      try destruct (negb (typeof v =? "object")%string || isArray v
                    || isNull v);
      simpl;
      eexists; (split; [eexists _, _; split;
                        [reflexivity | apply lookup_allocated]|]);
      simpl; auto.
  - eexists. split; [eexists _, _; split;
                     [reflexivity | apply lookup_allocated]|].
    reflexivity.
Qed.

(** A note in iCloud that is out of reach: the read ends in [ERROR]. *)
Lemma typed_read_always_answers_witness :
  exists obj,
    yields (CustomFileManager.read MemFM.api MiniJSON.runtime typedManager
              "far" None None) unreachableNote obj /\
    if fm_fileExists MemFM.api (disk unreachableNote) "/docs/data/far.txt"
    then status obj = OK \/ obj = errorResponse
    else obj = notFoundResponse.
Proof.
  apply (typed_read_always_answers _ MemFM.api MiniJSON.runtime typedManager
           unreachableNote "far" None None (disk unreachableNote)).
  vm_compute. reflexivity.
Defined.

(** ** A download that throws *)

(** Neither manager catches what [downloadFileFromiCloud] throws: when a
    download is pending and throws, [read] of [CustomFileManager] and, on
    an existing file, the five safe readers of [NewFileManager] throw the
    same exception, after the questions about iCloud and the download, and
    without a response or a line on the console. *)
Theorem download_failure_is_not_caught :
  forall (D : Type) (fm : FileManagerAPI D) (js : JSRuntime) (w : World D)
         (path : string) (e : Exn) (d1 : D),
    pending fm (disk w) path = true ->
    fm_downloadFileFromiCloud fm path (disk w) = (Thrown e, d1) ->
    (forall (this : CustomFileManager) (file : string)
            (type' : option FileType) (configDir' : option bool),
        CustomFileManager.getAbsolutePath fm this
          (resolved file (default TEXT type')) (default true configDir')
        = path ->
        CustomFileManager.read fm js this file type' configDir' w
        = (Thrown e, after_cloud_calls fm w path d1)) /\
    (forall (this : NewFileManager) (filePath : string)
            (autoExtension : option bool),
        fm_fileExists fm (disk w) path = true ->
        let failed :=
          (Thrown e,
           after_cloud_calls fm (logged (CallFileExists path) w) path d1) in
        (NewFileManager.mapPath fm this filePath = path ->
         NewFileManager.readS fm this filePath w = failed /\
         NewFileManager.readStringS fm this filePath w = failed /\
         NewFileManager.readImageS fm this filePath w = failed) /\
        (NewFileManager.mapPath fm this (resolvedJSON filePath autoExtension)
         = path ->
         NewFileManager.readJSONS fm js this filePath autoExtension w
         = failed /\
         NewFileManager.readJSONDictS fm js this filePath autoExtension w
         = failed)).
Proof.
  intros D fm js w path e d1 Hpending Hfails.
  assert (Hwrapper : forall (this : NewFileManager) (filePath : string)
                            (fn : string -> M D JSValue),
    fm_fileExists fm (disk w) path = true ->
    NewFileManager.mapPath fm this filePath = path ->
    NewFileManager.readSmartWrapper fm this filePath fn w
    = (Thrown e,
       after_cloud_calls fm (logged (CallFileExists path) w) path d1)).
  { intros this filePath fn Hexists Hpath.
    unfold NewFileManager.readSmartWrapper, NewFileManager.fileExists,
      NewFileManager.isFileStoredIniCloud, NewFileManager.isFileDownloaded,
      NewFileManager.downloadFileFromiCloud.
    rewrite Hpath. unfold bind at 1. unfold fileExists at 1, query at 1.
    rewrite Hexists. change (negb true) with false. cbv iota.
    apply await_failed; assumption. }
  split.
  - intros this file type' configDir' Hpath.
    unfold CustomFileManager.read, resolved in *. cbv zeta.
    rewrite Hpath. apply await_failed; assumption.
  - intros this filePath autoExtension Hexists failed. subst failed. split.
    + intros Hpath. repeat split; apply Hwrapper; assumption.
    + intros Hpath. unfold resolvedJSON in Hpath.
      split; [unfold NewFileManager.readJSONS
             |unfold NewFileManager.readJSONDictS, promise_is_null; simpl];
        apply Hwrapper; assumption.
Qed.

(** A file in iCloud, out of reach, on the backend whose download
    throws. *)
Lemma download_failure_is_not_caught_witness :
  CustomFileManager.read MemFM.rejecting MiniJSON.runtime typedManager "far"
    (Some JSON) None farJSON
  = (Thrown (MemFM.downloadError "/docs/data/far.json"),
     after_cloud_calls MemFM.rejecting farJSON "/docs/data/far.json"
       (disk farJSON)) /\
  NewFileManager.readJSONS MemFM.rejecting MiniJSON.runtime scopedAccessor
    "far" None farJSON
  = (Thrown (MemFM.downloadError "/docs/data/far.json"),
     after_cloud_calls MemFM.rejecting
       (logged (CallFileExists "/docs/data/far.json") farJSON)
       "/docs/data/far.json" (disk farJSON)).
Proof.
  pose proof (download_failure_is_not_caught _ MemFM.rejecting
                MiniJSON.runtime farJSON "/docs/data/far.json"
                (MemFM.downloadError "/docs/data/far.json") (disk farJSON))
    as H.
  destruct H as [Htyped Hscoped];
    [vm_compute; reflexivity | vm_compute; reflexivity |].
  split.
  - apply (Htyped typedManager "far" (Some JSON) None). reflexivity.
  - apply (Hscoped scopedAccessor "far" None);
      [vm_compute; reflexivity | reflexivity].
Defined.

(** ** What the readers leave alone *)

(** No reader of either manager calls [writeString], and a reader run
    while no download is pending for its path leaves the backend in the
    state it found. *)
Theorem readers_never_write :
  forall (D : Type) (fm : FileManagerAPI D) (js : JSRuntime) (w : World D),
    let harmless (A : Type) (m : M D A) (path : string) :=
      (exists tr,
          emits m w tr /\ Forall (fun c => is_write c = false) tr) /\
      (pending fm (disk w) path = false -> disk (snd (m w)) = disk w) in
    (forall (this : CustomFileManager) (file : string)
            (type' : option FileType) (configDir' : option bool),
        harmless Ref
          (CustomFileManager.read fm js this file type' configDir')
          (CustomFileManager.getAbsolutePath fm this
             (resolved file (default TEXT type')) (default true configDir')))
    /\
    (forall (this : NewFileManager) (filePath : string)
            (autoExtension : option bool),
        let path := NewFileManager.mapPath fm this filePath in
        let jsonPath :=
          NewFileManager.mapPath fm this (resolvedJSON filePath autoExtension)
        in
        harmless Ref (NewFileManager.readS fm this filePath) path /\
        harmless Ref (NewFileManager.readStringS fm this filePath) path /\
        harmless Ref (NewFileManager.readImageS fm this filePath) path /\
        harmless Ref
          (NewFileManager.readJSONS fm js this filePath autoExtension)
          jsonPath /\
        harmless Ref
          (NewFileManager.readJSONDictS fm js this filePath autoExtension)
          jsonPath /\
        harmless string (NewFileManager.readString fm this filePath) path /\
        harmless JSValue
          (NewFileManager.readJSON fm js this filePath autoExtension)
          jsonPath /\
        harmless JSValue
          (NewFileManager.readJSONDict fm js this filePath autoExtension)
          jsonPath).
Proof.
  intros D fm js w harmless. subst harmless. cbv beta.
  split.
  - intros this file type' configDir'. unfold resolved, pending.
    unfold_run. simpl.
    set (p := CustomFileManager.getAbsolutePath fm this _ _).
    split.
    + destruct type' as [[]|]; split_run; try congruence;
        rewrite <- ?app_assoc; simpl;
        eexists; (split; [reflexivity|]); repeat constructor.
    + intros Hpending.
      destruct type' as [[]|]; split_run; try congruence;
        simpl in Hpending; try discriminate Hpending; reflexivity.
  - intros this filePath autoExtension path jsonPath.
    subst path jsonPath. unfold resolvedJSON, pending.
    repeat split;
      try (intros Hpending);
      unfold_run; split_run; try congruence;
      rewrite <- ?app_assoc; simpl;
      first [ eexists; (split; [reflexivity|]); repeat constructor
            | simpl in Hpending; try discriminate Hpending; reflexivity ].
Qed.

(** A note on the device, read by both managers. *)
Lemma readers_never_write_witness :
  disk (snd (CustomFileManager.read MemFM.api MiniJSON.runtime typedManager
               "note" None None localNote))
  = disk localNote /\
  disk (snd (NewFileManager.readStringS MemFM.api scopedAccessor "note.txt"
               localNote))
  = disk localNote.
Proof.
  pose proof (readers_never_write _ MemFM.api MiniJSON.runtime localNote)
    as [Htyped Hscoped].
  split.
  - apply (proj2 (Htyped typedManager "note" None None)).
    vm_compute. reflexivity.
  - apply (proj2 (proj1 (proj2 (Hscoped scopedAccessor "note.txt" None)))).
    vm_compute. reflexivity.
Defined.

(** ** What [write] hands over, and reading it back *)

Lemma write_delegates {D : Type} (fm : FileManagerAPI D) (js : JSRuntime)
    (this : CustomFileManager) (w : World D) (payload : Payload)
    (file' : option string) (type' : option FileType)
    (configDir' : option bool) :
  CustomFileManager.write fm js this payload file' type' configDir' w
  = delegated_write fm w
      (CustomFileManager.getAbsolutePath fm this
         (resolved (default (filestub this) file') (default TEXT type'))
         (default true configDir'))
      (written_text js payload (default TEXT type')).
Proof.
  unfold CustomFileManager.write, delegated_write, resolved, written_text,
    writeString, action.
  destruct payload as [text|fields]; destruct type' as [[]|]; simpl;
    match goal with
    | |- context [fm_writeString fm ?p ?c (disk w)] =>
        destruct (fm_writeString fm p c (disk w)); reflexivity
    end.
Qed.

(** A reader that runs after a [write] that returned. *)
Lemma after_write {D : Type} (fm : FileManagerAPI D) (js : JSRuntime)
    (this : CustomFileManager) (w : World D) (payload : Payload)
    (file' : option string) (type' : option FileType)
    (configDir' : option bool) (reader : M D Ref) (obj : DataResponse)
    (lines : list LogEntry) (path content : string) :
  path = CustomFileManager.getAbsolutePath fm this
           (resolved (default (filestub this) file') (default TEXT type'))
           (default true configDir') ->
  content = written_text js payload (default TEXT type') ->
  fst (fm_writeString fm path content (disk w)) = Returned tt ->
  constructs reader (snd (delegated_write fm w path content)) obj lines ->
  constructs
    (CustomFileManager.write fm js this payload file' type' configDir';;
     reader) w obj lines.
Proof.
  intros -> -> Hreturned (r & w' & Hrun & Hobj & Hconsole).
  exists r, w'. unfold bind. rewrite write_delegates.
  unfold delegated_write in *. simpl in *. rewrite Hreturned.
  auto.
Qed.

Lemma typed_read_of_non_dictionary {D : Type} (fm : FileManagerAPI D)
    (js : JSRuntime) (this : CustomFileManager) (w : World D) (file : string)
    (configDir' : option bool) (text : string) (v : JSValue) :
  holds_text fm (disk w)
    (CustomFileManager.getAbsolutePath fm this (resolved file JSON_DICT)
       (default true configDir')) text ->
  JSON_parse js text = Returned v ->
  not_an_object v = true ->
  constructs
    (CustomFileManager.read fm js this file (Some JSON_DICT) configDir') w
    errorResponse [LogWarn "read: parsed data not a dictionary."].
Proof.
  intros (_ & d' & Hmat & Hexists & Hread) Hparse Hshape.
  apply not_an_object_rejected in Hshape.
  unfold constructs.
  rewrite (typed_read_steps fm js this w file (Some JSON_DICT) configDir' d'
             Hmat).
  run_read. rewrite Hexists. simpl. rewrite Hread. simpl.
  rewrite Hparse. simpl. rewrite Hshape. simpl. constructed.
Qed.

Lemma constructs_yields {D : Type} (m : M D Ref) (w : World D)
    (obj : DataResponse) (lines : list LogEntry) :
  constructs m w obj lines -> yields m w obj.
Proof. intros (r & w' & Hrun & Hobj & _). exists r, w'. auto. Qed.

(** A string payload is handed to the backend as its [JSON.stringify] text
    under the kinds [JSON] and [JSON_DICT], and as it is under [TEXT],
    [LOG] and [OTHER]; [write] is the one backend call [writeString] on the
    resolved path, with the outcome of that call. *)
Theorem write_serialises_strings_by_kind :
  forall (D : Type) (fm : FileManagerAPI D) (js : JSRuntime)
         (this : CustomFileManager) (w : World D) (text : string)
         (file' : option string) (k : FileType) (configDir' : option bool),
    let path :=
      CustomFileManager.getAbsolutePath fm this
        (resolved (default (filestub this) file') k)
        (default true configDir') in
    CustomFileManager.write fm js this (PString text) file' (Some k)
      configDir' w
    = delegated_write fm w path
        (if textual k then text else JSON_stringify js (VStr text)).
Proof.
  intros D fm js this w text file' k configDir' path. subst path.
  rewrite write_delegates. unfold written_text, parsed. simpl.
  destruct (textual k); reflexivity.
Qed.

(** Under [TEXT], [LOG] and [OTHER], what [write] wrote comes back from
    [read] under the same kind as a string with status [OK]: a string
    payload as it was, a record payload as its JSON text. *)
Theorem write_then_read_text :
  forall (D : Type) (fm : FileManagerAPI D) (js : JSRuntime)
         (this : CustomFileManager) (w : World D) (payload : Payload)
         (file : string) (k : FileType) (configDir' : option bool),
    let path :=
      CustomFileManager.getAbsolutePath fm this (resolved file k)
        (default true configDir') in
    let content := written_text js payload k in
    textual k = true ->
    keeps_written fm (disk w) path content ->
    constructs
      (CustomFileManager.write fm js this payload (Some file) (Some k)
         configDir';;
       CustomFileManager.read fm js this file (Some k) configDir')
      w (okResponse (VStr content)) [].
Proof.
  intros D fm js this w payload file k configDir' path content Hkind
    [Hreturned Hholds].
  apply (after_write fm js this w payload (Some file) (Some k) configDir' _ _
           _ path content); [reflexivity | reflexivity | exact Hreturned |].
  apply typed_read_of_text; [exact Hkind | exact Hholds].
Qed.

(** The record [{a: 1}] written under [TEXT] over an earlier file: it
    comes back as text. *)
Lemma write_then_read_text_witness :
  constructs
    (CustomFileManager.write MemFM.api MiniJSON.runtime typedManager
       (PRecord a_is_1) (Some "note") (Some TEXT) None;;
     CustomFileManager.read MemFM.api MiniJSON.runtime typedManager "note"
       (Some TEXT) None)
    cloudNote (okResponse (VStr (MiniJSON.stringify (VObj a_is_1)))) [].
Proof.
  apply (write_then_read_text _ MemFM.api MiniJSON.runtime typedManager
           cloudNote (PRecord a_is_1) "note" TEXT None).
  - reflexivity.
  - split; [reflexivity|].
    holds_by_evaluation
      (snd (fm_writeString MemFM.api "/docs/data/note.txt"
              (MiniJSON.stringify (VObj a_is_1)) (disk cloudNote))).
Defined.

(** Under the kinds [JSON] and [JSON_DICT], in any combination for writing
    and reading, a payload that [JSON.parse] reads back from its
    [JSON.stringify] text comes back with status [OK]; except that a
    string payload read under [JSON_DICT] gives [ERROR], a string not being
    a dictionary. *)
Theorem write_then_read_json :
  forall (D : Type) (fm : FileManagerAPI D) (js : JSRuntime)
         (this : CustomFileManager) (w : World D) (payload : Payload)
         (file : string) (writeKind readKind : FileType)
         (configDir' : option bool),
    let path :=
      CustomFileManager.getAbsolutePath fm this (resolved file JSON)
        (default true configDir') in
    let content := JSON_stringify js (payload_value payload) in
    parsed writeKind = true ->
    parsed readKind = true ->
    JSON_parse js content = Returned (payload_value payload) ->
    keeps_written fm (disk w) path content ->
    yields
      (CustomFileManager.write fm js this payload (Some file) (Some writeKind)
         configDir';;
       CustomFileManager.read fm js this file (Some readKind) configDir')
      w (read_back payload readKind).
Proof.
  intros D fm js this w payload file writeKind readKind configDir' path
    content Hwrite Hread Hparse [Hreturned Hholds].
  assert (Hcontent : content = written_text js payload writeKind).
  { subst content. unfold written_text. rewrite Hwrite.
    destruct payload; reflexivity. }
  assert (Hpath : path = CustomFileManager.getAbsolutePath fm this
                           (resolved file writeKind) (default true configDir')).
  { subst path. destruct writeKind; try discriminate Hwrite; reflexivity. }
  destruct readKind; try discriminate Hread.
  - eapply constructs_yields.
    apply (after_write fm js this w payload (Some file) (Some writeKind)
             configDir' _ _ _ path content);
      [exact Hpath | exact Hcontent | exact Hreturned |].
    apply (typed_read_of_json fm js this _ file configDir' content);
      [exact Hholds | exact Hparse].
  - destruct payload as [text|fields]; eapply constructs_yields;
      apply (after_write fm js this w _ (Some file) (Some writeKind)
               configDir' _ _ _ path content);
      try first [exact Hpath | exact Hcontent | exact Hreturned].
    + apply (typed_read_of_non_dictionary fm js this _ file configDir' content
               (VStr text)); [exact Hholds | exact Hparse | reflexivity].
    + apply (typed_read_of_dictionary fm js this _ file configDir' content);
        [exact Hholds | exact Hparse].
Qed.

(** The string [hi] written under [JSON] and read under [JSON_DICT]. *)
Lemma write_then_read_json_witness :
  yields
    (CustomFileManager.write MemFM.api MiniJSON.runtime typedManager
       (PString "hi") (Some "greeting") (Some JSON) None;;
     CustomFileManager.read MemFM.api MiniJSON.runtime typedManager "greeting"
       (Some JSON_DICT) None)
    (MemFM.world []) errorResponse.
Proof.
  apply (write_then_read_json _ MemFM.api MiniJSON.runtime typedManager
           (MemFM.world []) (PString "hi") "greeting" JSON JSON_DICT None).
  - reflexivity.
  - reflexivity.
  - vm_compute. reflexivity.
  - split; [reflexivity|].
    holds_by_evaluation
      (snd (fm_writeString MemFM.api "/docs/data/greeting.json"
              (MiniJSON.stringify (VStr "hi")) (disk (MemFM.world [])))).
Defined.

(** ** What the safe readers of [NewFileManager] answer *)

Ltac run_wrapper Hexists Hmat :=
  unfold constructs, yields, NewFileManager.readS, NewFileManager.readStringS,
    NewFileManager.readImageS, NewFileManager.readJSONS,
    NewFileManager.readJSONDictS, promise_is_null;
  cbv zeta; change (negb false) with true; cbv iota;
  rewrite (wrapper_steps _ _ _ _ _ _ Hexists Hmat);
  unfold NewFileManager.readJSONDict, NewFileManager.readJSON,
    NewFileManager.read, NewFileManager.readString, NewFileManager.readImage;
  run_read.

Lemma scoped_readJSONS_of_json {D : Type} (fm : FileManagerAPI D)
    (js : JSRuntime) (this : NewFileManager) (w : World D) (filePath : string)
    (autoExtension : option bool) (text : string) (v : JSValue) :
  holds_text fm (disk w)
    (NewFileManager.mapPath fm this (resolvedJSON filePath autoExtension))
    text ->
  JSON_parse js text = Returned v ->
  constructs (NewFileManager.readJSONS fm js this filePath autoExtension) w
             (okResponse v) [].
Proof.
  intros (Hexists & d' & Hmat & _ & Hread) Hparse.
  unfold resolvedJSON in *.
  run_wrapper Hexists Hmat. rewrite Hread. simpl. rewrite Hparse. simpl.
  constructed.
Qed.

Lemma scoped_readJSONDictS_of_record {D : Type} (fm : FileManagerAPI D)
    (js : JSRuntime) (this : NewFileManager) (w : World D) (filePath : string)
    (autoExtension : option bool) (text : string)
    (fields : list (string * JSValue)) :
  holds_text fm (disk w)
    (NewFileManager.mapPath fm this (resolvedJSON filePath autoExtension))
    text ->
  JSON_parse js text = Returned (VObj fields) ->
  constructs (NewFileManager.readJSONDictS fm js this filePath autoExtension)
             w (okResponse (VObj fields)) [].
Proof.
  intros (Hexists & d' & Hmat & _ & Hread) Hparse.
  unfold resolvedJSON in *.
  run_wrapper Hexists Hmat. rewrite Hread. simpl. rewrite Hparse. simpl.
  constructed.
Qed.

(** On an existing file, a safe reader of [NewFileManager] returns status
    [OK] with what its raw reader returns: the text for [readStringS], what
    the text parses to (of any shape) for [readJSONS], the record it parses
    to for [readJSONDictS], and what the backend's [read] and [readImage]
    return for [readS] and [readImageS].  Nothing is written to the
    console. *)
Theorem scoped_readers_return_content :
  forall (D : Type) (fm : FileManagerAPI D) (js : JSRuntime)
         (this : NewFileManager) (w : World D) (filePath : string)
         (autoExtension : option bool),
    let path := NewFileManager.mapPath fm this filePath in
    let jsonPath :=
      NewFileManager.mapPath fm this (resolvedJSON filePath autoExtension) in
    (forall text : string,
        holds_text fm (disk w) path text ->
        constructs (NewFileManager.readStringS fm this filePath) w
                   (okResponse (VStr text)) []) /\
    (forall (text : string) (v : JSValue),
        holds_text fm (disk w) jsonPath text ->
        JSON_parse js text = Returned v ->
        constructs (NewFileManager.readJSONS fm js this filePath autoExtension)
                   w (okResponse v) []) /\
    (forall (text : string) (fields : list (string * JSValue)),
        holds_text fm (disk w) jsonPath text ->
        JSON_parse js text = Returned (VObj fields) ->
        constructs
          (NewFileManager.readJSONDictS fm js this filePath autoExtension) w
          (okResponse (VObj fields)) []) /\
    (forall (d' : D) (v : JSValue),
        fm_fileExists fm (disk w) path = true ->
        materialised fm (disk w) path = Some d' ->
        (fm_read fm d' path = Returned v ->
         constructs (NewFileManager.readS fm this filePath) w
                    (okResponse v) []) /\
        (fm_readImage fm d' path = Returned v ->
         constructs (NewFileManager.readImageS fm this filePath) w
                    (okResponse v) [])).
Proof.
  intros D fm js this w filePath autoExtension path jsonPath.
  subst path jsonPath. split; [|split; [|split]].
  - intros text (Hexists & d' & Hmat & _ & Hread).
    run_wrapper Hexists Hmat. rewrite Hread. simpl. constructed.
  - intros text v. apply scoped_readJSONS_of_json.
  - intros text fields. apply scoped_readJSONDictS_of_record.
  - intros d' v Hexists Hmat. split; intros Hread;
      run_wrapper Hexists Hmat; rewrite Hread; simpl; constructed.
Qed.

(** The note in iCloud, read as a string, and the array, read as JSON. *)
Lemma scoped_readers_return_content_witness :
  constructs (NewFileManager.readStringS MemFM.api scopedAccessor "note.txt")
             cloudNote (okResponse (VStr "hello")) [] /\
  constructs
    (NewFileManager.readJSONS MemFM.api MiniJSON.runtime scopedAccessor "arr"
       None)
    arrayFile (okResponse (VArr [VNum 1; VNum 2; VNum 3])) [].
Proof.
  split.
  - apply (proj1 (scoped_readers_return_content _ MemFM.api MiniJSON.runtime
                    scopedAccessor cloudNote "note.txt" None) "hello").
    holds_by_evaluation
      (snd (fm_downloadFileFromiCloud MemFM.api "/docs/data/note.txt"
              (disk cloudNote))).
  - apply (proj1 (proj2 (scoped_readers_return_content _ MemFM.api
                           MiniJSON.runtime scopedAccessor arrayFile "arr"
                           None)) "[1,2,3]").
    + holds_by_evaluation (disk arrayFile).
    + vm_compute. reflexivity.
Defined.

(** ** The [.json] extension of [NewFileManager] *)

Lemma resolvedJSON_endsWith (filePath : string) :
  endsWith (resolvedJSON filePath None) ".json" = true.
Proof.
  unfold resolvedJSON. simpl.
  destruct (endsWith filePath ".json") eqn:Hends; simpl;
    [exact Hends | apply endsWith_app].
Qed.

Lemma resolvedJSON_idempotent (filePath : string) :
  resolvedJSON (resolvedJSON filePath None) None = resolvedJSON filePath None.
Proof.
  unfold resolvedJSON at 1. rewrite resolvedJSON_endsWith. reflexivity.
Qed.

Lemma writeJSON_delegates {D : Type} (fm : FileManagerAPI D) (js : JSRuntime)
    (this : NewFileManager) (w : World D) (filePath : string)
    (content : list (string * JSValue)) :
  NewFileManager.writeJSON fm js this filePath content w
  = delegated_write fm w
      (NewFileManager.mapPath fm this (resolvedJSON filePath None))
      (JSON_stringify js (VObj content)).
Proof.
  unfold NewFileManager.writeJSON, NewFileManager.writeString, resolvedJSON,
    delegated_write, writeString, action. simpl.
  destruct (endsWith filePath ".json"); simpl;
    match goal with
    | |- context [fm_writeString fm ?p ?c (disk w)] =>
        destruct (fm_writeString fm p c (disk w)); reflexivity
    end.
Qed.

(** The JSON operations of [NewFileManager] append [.json] once.  The one
    backend call of [readJSON], of [readJSONDict] and of [writeJSON], and
    every backend call of [readJSONS] and of [readJSONDictS], starting with
    the existence check, is on the path of the name with [.json] appended
    only if it does not end with it; with [autoExtension] false the readers
    call the backend on the path of the name as it is.  Called with a name
    that already carries the extension, the operations are what they are
    for the name without it. *)
Theorem json_extension_added_once :
  forall (D : Type) (fm : FileManagerAPI D) (js : JSRuntime)
         (this : NewFileManager) (w : World D) (filePath : string)
         (autoExtension : option bool) (content : list (string * JSValue)),
    let once :=
      if endsWith filePath ".json" then filePath else filePath +:+ ".json" in
    let path :=
      NewFileManager.mapPath fm this
        (if default true autoExtension then once else filePath) in
    let stored := NewFileManager.mapPath fm this once in
    endsWith once ".json" = true /\
    emits (NewFileManager.readJSON fm js this filePath autoExtension) w
          [CallReadString path] /\
    emits (NewFileManager.readJSONDict fm js this filePath autoExtension) w
          [CallReadString path] /\
    emits (NewFileManager.readJSONS fm js this filePath autoExtension) w
          (calls_exists_first fm (disk w) path (CallReadString path)) /\
    emits (NewFileManager.readJSONDictS fm js this filePath autoExtension) w
          (calls_exists_first fm (disk w) path (CallReadString path)) /\
    emits (NewFileManager.writeJSON fm js this filePath content) w
          [CallWriteString stored (JSON_stringify js (VObj content))] /\
    NewFileManager.readJSON fm js this once None
    = NewFileManager.readJSON fm js this filePath None /\
    NewFileManager.readJSONDict fm js this once None
    = NewFileManager.readJSONDict fm js this filePath None /\
    NewFileManager.readJSONS fm js this once None
    = NewFileManager.readJSONS fm js this filePath None /\
    NewFileManager.readJSONDictS fm js this once None
    = NewFileManager.readJSONDictS fm js this filePath None /\
    NewFileManager.writeJSON fm js this once content
    = NewFileManager.writeJSON fm js this filePath content.
Proof.
  intros D fm js this w filePath autoExtension content once path stored.
  assert (Hends : endsWith once ".json" = true).
  { subst once. destruct (endsWith filePath ".json") eqn:Hends;
      [exact Hends | apply endsWith_app]. }
  split; [exact Hends|].
  assert (Hpath :
    NewFileManager.mapPath fm this
      (if default true autoExtension && negb (endsWith filePath ".json")
       then filePath +:+ ".json" else filePath) = path).
  { subst path once.
    destruct autoExtension as [[]|], (endsWith filePath ".json");
      reflexivity. }
  split; [|split; [|split; [|split; [|split]]]].
  - unfold emits, NewFileManager.readJSON, NewFileManager.readString.
    cbv zeta. rewrite Hpath. run_read.
    destruct (fm_readString fm (disk w) path) as [text|e]; reflexivity.
  - unfold emits, NewFileManager.readJSONDict, NewFileManager.readJSON,
      NewFileManager.readString.
    cbv zeta. rewrite Hpath. run_read.
    destruct (fm_readString fm (disk w) path) as [text|e]; simpl;
      [|reflexivity].
    destruct (JSON_parse js text) as [v|e]; simpl; [|reflexivity].
    destruct (negb (typeof v =? "object")%string || isArray v || isNull v);
      reflexivity.
  - clear Hpath. subst path once.
    unfold calls_exists_first, cloud_calls, materialised, pending.
    destruct autoExtension as [[]|], (endsWith filePath ".json") eqn:Hname;
      unfold_run; simpl; rewrite ?Hname; split_run; try congruence;
      rewrite <- ?app_assoc; reflexivity.
  - clear Hpath. subst path once.
    unfold calls_exists_first, cloud_calls, materialised, pending.
    destruct autoExtension as [[]|], (endsWith filePath ".json") eqn:Hname;
      unfold_run; simpl; rewrite ?Hname; split_run; try congruence;
      rewrite <- ?app_assoc; reflexivity.
  - unfold emits. rewrite writeJSON_delegates.
    subst stored once. unfold resolvedJSON, delegated_write. simpl.
    destruct (endsWith filePath ".json"); reflexivity.
  - unfold NewFileManager.readJSONDict, NewFileManager.readJSONDictS,
      NewFileManager.readJSONS, NewFileManager.readJSON,
      NewFileManager.writeJSON.
    cbv zeta. simpl default. rewrite Hends. simpl.
    subst once. repeat split;
      destruct (endsWith filePath ".json"); reflexivity.
Qed.

(** ** Writing JSON with [NewFileManager], and reading it back *)

(** A record that [JSON.parse] reads back from its [JSON.stringify] text,
    written with [writeJSON], comes back from [readJSONDictS] and from
    [readJSONS] under the same name with status [OK]. *)
Theorem writeJSON_then_read :
  forall (D : Type) (fm : FileManagerAPI D) (js : JSRuntime)
         (this : NewFileManager) (w : World D) (filePath : string)
         (content : list (string * JSValue)),
    let path :=
      NewFileManager.mapPath fm this (resolvedJSON filePath None) in
    let text := JSON_stringify js (VObj content) in
    JSON_parse js text = Returned (VObj content) ->
    keeps_written fm (disk w) path text ->
    constructs
      (NewFileManager.writeJSON fm js this filePath content;;
       NewFileManager.readJSONDictS fm js this filePath None)
      w (okResponse (VObj content)) [] /\
    constructs
      (NewFileManager.writeJSON fm js this filePath content;;
       NewFileManager.readJSONS fm js this filePath None)
      w (okResponse (VObj content)) [].
Proof.
  intros D fm js this w filePath content path text Hparse [Hreturned Hholds].
  assert (Hafter : forall reader : M D Ref,
    constructs reader (snd (delegated_write fm w path text))
               (okResponse (VObj content)) [] ->
    constructs (NewFileManager.writeJSON fm js this filePath content;; reader)
               w (okResponse (VObj content)) []).
  { intros reader (r & w' & Hrun & Hobj & Hconsole).
    exists r, w'. unfold bind. rewrite writeJSON_delegates.
    fold path. fold text. unfold delegated_write in *. simpl in *.
    rewrite Hreturned. auto. }
  split; apply Hafter.
  - apply (scoped_readJSONDictS_of_record fm js this _ filePath None text);
      [exact Hholds | exact Hparse].
  - apply (scoped_readJSONS_of_json fm js this _ filePath None text);
      [exact Hholds | exact Hparse].
Qed.

(** The record [{a: 1}] written over a file that was in iCloud. *)
Lemma writeJSON_then_read_witness :
  constructs
    (NewFileManager.writeJSON MemFM.api MiniJSON.runtime scopedAccessor "rec"
       a_is_1;;
     NewFileManager.readJSONDictS MemFM.api MiniJSON.runtime scopedAccessor
       "rec" None)
    staleRecord (okResponse (VObj a_is_1)) [] /\
  constructs
    (NewFileManager.writeJSON MemFM.api MiniJSON.runtime scopedAccessor "rec"
       a_is_1;;
     NewFileManager.readJSONS MemFM.api MiniJSON.runtime scopedAccessor
       "rec" None)
    staleRecord (okResponse (VObj a_is_1)) [].
Proof.
  apply (writeJSON_then_read _ MemFM.api MiniJSON.runtime scopedAccessor
           staleRecord "rec" a_is_1).
  - vm_compute. reflexivity.
  - split; [reflexivity|].
    holds_by_evaluation
      (snd (fm_writeString MemFM.api "/docs/data/rec.json"
              (MiniJSON.stringify (VObj a_is_1)) (disk staleRecord))).
Defined.

(** ** The raw readers *)

(** The raw readers of [NewFileManager] make one backend call, the read:
    no existence check, no question about iCloud, no download.  What the
    backend throws, and what [JSON.parse] throws, is thrown to the caller;
    nothing is written to the console but the warning of [readJSONDict],
    which answers [null] for what is not a record. *)
Theorem raw_readers_fail_fast :
  forall (D : Type) (fm : FileManagerAPI D) (js : JSRuntime)
         (this : NewFileManager) (w : World D) (filePath : string)
         (autoExtension : option bool),
    let path := NewFileManager.mapPath fm this filePath in
    let jsonPath :=
      NewFileManager.mapPath fm this (resolvedJSON filePath autoExtension) in
    let parsed_text :=
      match fm_readString fm (disk w) jsonPath with
      | Returned text => JSON_parse js text
      | Thrown e => Thrown e
      end in
    NewFileManager.readString fm this filePath w
    = (fm_readString fm (disk w) path, logged (CallReadString path) w) /\
    NewFileManager.read fm this filePath w
    = (fm_read fm (disk w) path, logged (CallRead path) w) /\
    NewFileManager.readImage fm this filePath w
    = (fm_readImage fm (disk w) path, logged (CallReadImage path) w) /\
    NewFileManager.readJSON fm js this filePath autoExtension w
    = (parsed_text, logged (CallReadString jsonPath) w) /\
    NewFileManager.readJSONDict fm js this filePath autoExtension w
    = match parsed_text with
      | Thrown e => (Thrown e, logged (CallReadString jsonPath) w)
      | Returned v =>
          if negb (typeof v =? "object")%string || isArray v || isNull v
          then
            (Returned VNull,
             mkWorld (disk w) (heap w) (calls w ++ [CallReadString jsonPath])
               (console w ++
                [LogWarn ("readJSONDict: data not a dictionary.(" +:+ typeof v
                          +:+ ")")]))
          else (Returned v, logged (CallReadString jsonPath) w)
      end.
Proof.
  intros D fm js this w filePath autoExtension path jsonPath parsed_text.
  subst path jsonPath parsed_text. unfold resolvedJSON.
  unfold NewFileManager.readJSONDict, NewFileManager.readJSON,
    NewFileManager.read, NewFileManager.readString, NewFileManager.readImage.
  run_read. repeat split.
  - destruct (fm_readString fm (disk w) _) as [text|e]; reflexivity.
  - destruct (fm_readString fm (disk w) _) as [text|e]; simpl;
      [|reflexivity].
    destruct (JSON_parse js text) as [v|e]; simpl; [|reflexivity].
    destruct (negb (typeof v =? "object")%string || isArray v || isNull v);
      reflexivity.
Qed.

(** ** [CustomData] *)

Lemma at_most_refl (x : JSNumber) : x <> NaN -> at_most x x.
Proof.
  destruct x; simpl; intros H; try exact I; [congruence | apply Qcle_refl].
Qed.

Lemma at_most_trans (x y z : JSNumber) :
  at_most x y -> at_most y z -> at_most x z.
Proof.
  destruct x, y, z; simpl; try tauto. apply Qcle_trans.
Qed.

Lemma greater_cases (x y : JSNumber) :
  x <> NaN -> y <> NaN ->
  if greater x y then at_most y x else at_most x y.
Proof.
  destruct x, y; simpl; intros Hx Hy; try congruence; try exact I.
  destruct (bool_decide_reflect (q0 < q)%Qc) as [Hlt|Hge].
  - apply Qclt_le_weak. exact Hlt.
  - apply Qcnot_lt_le. exact Hge.
Qed.

(** One round of [Math.max]. *)
Lemma Math_max_from (xs : list JSNumber) (highest : JSNumber) :
  let step highest x :=
    match highest, x with
    | NaN, _ | _, NaN => NaN
    | _, _ => if greater x highest then x else highest
    end in
  let m := fold_left step xs highest in
  (highest = NaN \/ In NaN xs -> m = NaN) /\
  (highest <> NaN -> ~ In NaN xs ->
   at_most highest m /\ (forall x, In x xs -> at_most x m) /\
   (m = highest \/ In m xs)).
Proof.
  intros step. revert highest.
  induction xs as [|x xs IH]; intros highest; simpl.
  - split.
    + intros [H|[]]. exact H.
    + intros Hnumber _. split; [apply at_most_refl; exact Hnumber|].
      split; [intros x [] | left; reflexivity].
  - destruct (IH (step highest x)) as [IHnan IHmax]. split.
    + intros Hnan. apply IHnan.
      destruct Hnan as [->|[->|Hin]]; [left; reflexivity | | right; exact Hin].
      left. destruct highest; reflexivity.
    + intros Hnumber Hnone.
      assert (Hx : x <> NaN) by (intros ->; apply Hnone; left; reflexivity).
      assert (Hrest : ~ In NaN xs) by (intros Hin; apply Hnone; right; exact Hin).
      pose proof (greater_cases x highest Hx Hnumber) as Hcases.
      assert (Hstep : step highest x = if greater x highest then x else highest).
      { destruct highest, x; try reflexivity; congruence. }
      assert (Hnext : step highest x <> NaN).
      { rewrite Hstep. destruct (greater x highest); assumption. }
      destruct (IHmax Hnext Hrest) as (Hlow & Hall & Hattained).
      rewrite Hstep in Hlow, Hattained, Hall |- *.
      revert Hcases Hlow Hattained Hall.
      destruct (greater x highest); intros Hcases Hlow Hattained Hall.
      * split; [apply (at_most_trans _ x); assumption|].
        split.
        -- intros y [<-|Hin]; [exact Hlow | apply Hall; exact Hin].
        -- destruct Hattained as [Heq|Hin];
             [right; left; symmetry; exact Heq | right; right; exact Hin].
      * split; [exact Hlow|]. split.
        -- intros y [<-|Hin];
             [apply (at_most_trans _ highest); assumption
             | apply Hall; exact Hin].
        -- destruct Hattained as [Heq|Hin];
             [left; exact Heq | right; right; exact Hin].
Qed.

Lemma Math_max_spec (xs : list JSNumber) :
  (In NaN xs -> Math_max xs = NaN) /\
  (~ In NaN xs -> xs <> [] ->
   In (Math_max xs) xs /\ forall x, In x xs -> at_most x (Math_max xs)).
Proof.
  destruct (Math_max_from xs NegInfinity) as [Hnan Hmax].
  split.
  - intros Hin. apply Hnan. right. exact Hin.
  - intros Hnone Hsome.
    destruct (Hmax ltac:(discriminate) Hnone) as (_ & Hall & Hattained).
    split; [|exact Hall].
    destruct Hattained as [Heq|Hin]; [|exact Hin].
    destruct xs as [|x xs]; [congruence|].
    unfold Math_max. rewrite Heq.
    specialize (Hall x (or_introl eq_refl)). rewrite Heq in Hall.
    destruct x; simpl in Hall; try contradiction. left. reflexivity.
Qed.

Lemma numberOrZero_counted (value : list (string * Unknown))
    (index : string) :
  CustomData.numberOrZero (property value index) = counted value index.
Proof.
  unfold property, counted.
  destruct (lastBinding value index) as [[x|v]|]; simpl; try reflexivity.
  destruct v; reflexivity.
Qed.

(** [getMaxFromArrayOfObjectsByKey] on an array that the engine can pass
    as arguments, where a record counts for the number it has under the
    key, and for 0 when it has none there: it answers [-Infinity] for no
    record, [NaN] when one record counts for [NaN], and otherwise the
    count of one of the records that no record's count is above.  On a
    longer array it throws what the engine throws at too many
    arguments. *)
Theorem max_of_key_is_largest_count :
  forall (engine : Engine) (data : list (list (string * Unknown)))
         (index : string),
    let counts := map (fun value => counted value index) data in
    ((length data <= maxArguments engine)%nat ->
     exists m,
       CustomData.getMaxFromArrayOfObjectsByKey engine data index
       = Returned m /\
       (data = [] -> m = NegInfinity) /\
       (In NaN counts -> m = NaN) /\
       (~ In NaN counts -> data <> [] ->
        In m counts /\ forall x, In x counts -> at_most x m)) /\
    ((maxArguments engine < length data)%nat ->
     CustomData.getMaxFromArrayOfObjectsByKey engine data index
     = Thrown (tooManyArguments engine)).
Proof.
  intros engine data index counts.
  assert (Hcounts :
    map (fun value => CustomData.numberOrZero (property value index)) data
    = counts).
  { subst counts. apply map_ext. intros value. apply numberOrZero_counted. }
  unfold CustomData.getMaxFromArrayOfObjectsByKey, spread.
  rewrite Hcounts.
  assert (Hlength : length counts = length data)
    by (subst counts; apply length_map).
  rewrite Hlength. split.
  - intros Hfits. apply Nat.leb_le in Hfits. rewrite Hfits.
    exists (Math_max counts). split; [reflexivity|].
    destruct (Math_max_spec counts) as [Hnan Hmax].
    split; [|split].
    + intros ->. reflexivity.
    + exact Hnan.
    + intros Hnone Hsome. apply Hmax; [exact Hnone|].
      intros Hempty. apply Hsome.
      destruct data; [reflexivity | discriminate Hempty].
  - intros Hlong. apply Nat.leb_gt in Hlong. rewrite Hlong. reflexivity.
Qed.

(** The records [{a: 1}], [{a: NaN}] and [{a: 5}]. *)
Lemma max_of_key_is_largest_count_witness :
  CustomData.getMaxFromArrayOfObjectsByKey smallEngine oneNaN "a"
  = Returned NaN.
Proof.
  destruct (proj1 (max_of_key_is_largest_count smallEngine oneNaN "a"))
    as (m & Hrun & _ & Hnan & _).
  - simpl. lia.
  - rewrite Hrun. f_equal. apply Hnan. right. left. reflexivity.
Defined.

(** [save] without a file manager writes a warning to the console and
    nothing else.  With one it is the one backend call [writeString] of
    the [JSON.stringify] text of the storage object, to the file named
    file stub, id, [.json] in the manager's base directory: the extension,
    being there, is not added again. *)
Theorem save_writes_storage_object :
  forall (D : Type) (fm : FileManagerAPI D) (js : JSRuntime)
         (getStorageObject : CustomData -> list (string * JSValue))
         (w : World D) (id : string) (meta : list (string * JSValue))
         (data : list (list (string * JSValue))) (manager : CustomFileManager),
    let kept :=
      {| cd_id := id; cd_meta := meta; cd_data := data;
         cd_fm := Some manager |} in
    let loose :=
      {| cd_id := id; cd_meta := meta; cd_data := data; cd_fm := None |} in
    CustomData.storageFileName kept = (filestub manager +:+ id) +:+ ".json" /\
    CustomData.storageFileName loose = id +:+ ".json" /\
    CustomData.save fm js getStorageObject kept w
    = delegated_write fm w
        (fm_joinPath fm (basepath manager) (CustomData.storageFileName kept))
        (JSON_stringify js (VObj (getStorageObject kept))) /\
    CustomData.save fm js getStorageObject loose w
    = (Returned tt,
       mkWorld (disk w) (heap w) (calls w)
         (console w ++ [LogWarn "No FileManager registered"])).
Proof.
  intros D fm js getStorageObject w id meta data manager kept loose.
  split; [reflexivity|]. split; [reflexivity|]. split; [|reflexivity].
  unfold CustomData.save.
  change (cd_fm kept) with (Some manager). cbv iota.
  rewrite write_delegates. unfold written_text. simpl default.
  unfold CustomFileManager.getAbsolutePath, resolved.
  change (CustomFileManager.extensionByType JSON None) with ".json".
  unfold CustomData.storageFileName at 1. rewrite endsWith_app.
  reflexivity.
Qed.

(** What [save] stored comes back from [read] of the same manager under
    the storage file name and the kind [JSON_DICT], with status [OK]. *)
Theorem save_then_read :
  forall (D : Type) (fm : FileManagerAPI D) (js : JSRuntime)
         (getStorageObject : CustomData -> list (string * JSValue))
         (w : World D) (this : CustomData) (manager : CustomFileManager),
    let stored := getStorageObject this in
    let path :=
      fm_joinPath fm (basepath manager) (CustomData.storageFileName this) in
    let text := JSON_stringify js (VObj stored) in
    cd_fm this = Some manager ->
    JSON_parse js text = Returned (VObj stored) ->
    keeps_written fm (disk w) path text ->
    constructs
      (CustomData.save fm js getStorageObject this;;
       CustomFileManager.read fm js manager (CustomData.storageFileName this)
         (Some JSON_DICT) None)
      w (okResponse (VObj stored)) [].
Proof.
  intros D fm js getStorageObject w this manager stored path text Hmanager
    Hparse [Hreturned Hholds].
  assert (Hname : resolved (CustomData.storageFileName this) JSON
                  = CustomData.storageFileName this).
  { unfold resolved.
    change (CustomFileManager.extensionByType JSON None) with ".json".
    unfold CustomData.storageFileName at 1. rewrite endsWith_app.
    reflexivity. }
  unfold CustomData.save. rewrite Hmanager.
  apply (after_write fm js manager w (PRecord stored)
           (Some (CustomData.storageFileName this)) (Some JSON) None _ _ _
           path text).
  - subst path. unfold CustomFileManager.getAbsolutePath. simpl default.
    rewrite Hname. reflexivity.
  - reflexivity.
  - exact Hreturned.
  - apply (typed_read_of_dictionary fm js manager _
             (CustomData.storageFileName this) None text); [|exact Hparse].
    change (resolved (CustomData.storageFileName this) JSON_DICT)
      with (resolved (CustomData.storageFileName this) JSON).
    rewrite Hname. exact Hholds.
Qed.

(** The data object [42] of [typedManager], saved and read back. *)
Lemma save_then_read_witness :
  constructs
    (CustomData.save MemFM.api MiniJSON.runtime (fun _ => a_is_1) answerData;;
     CustomFileManager.read MemFM.api MiniJSON.runtime typedManager
       (CustomData.storageFileName answerData) (Some JSON_DICT) None)
    (MemFM.world []) (okResponse (VObj a_is_1)) [].
Proof.
  apply (save_then_read _ MemFM.api MiniJSON.runtime (fun _ => a_is_1)
           (MemFM.world []) answerData typedManager).
  - reflexivity.
  - vm_compute. reflexivity.
  - split; [reflexivity|].
    holds_by_evaluation
      (snd (fm_writeString MemFM.api "/docs/data/stub42.json"
              (MiniJSON.stringify (VObj a_is_1)) (disk (MemFM.world [])))).
Defined.

(** ** The constructors *)

Lemma chooseFileManager_chooses {D : Type} (env : Scriptable D)
    (w : World D) :
  chooseFileManager env w
  = (Returned (chosen env),
     mkWorld (disk w) (heap w) (calls w) (console w ++ fallback_warning env)).
Proof.
  unfold chooseFileManager, chosen, fallback_warning, try_catch, bind, lift,
    console_warn, ret.
  destruct w as [d h c l].
  destruct (FileManager_iCloud env) as [cloud|e]; simpl;
    [destruct (fm_documentsDirectory cloud) as [docs|e]; simpl|];
    rewrite ?app_nil_r; reflexivity.
Qed.

(** The constructor of [CustomFileManager] does not throw when iCloud is
    missing: it keeps the local file manager and writes the exception to
    the console as a warning.  With the documents directory of the file
    manager it keeps, the instance has this directory as [scriptableDir]
    and the base directory under it as [basepath].  The base directory is
    created when it is not a directory yet, and only then; what
    [createDirectory] throws is thrown to the caller. *)
Theorem typed_constructor_prepares_base_directory :
  forall (D : Type) (env : Scriptable D) (basedir filestub : string)
         (w : World D) (documents : string),
    let fm := chosen env in
    let base := fm_joinPath (fm_api fm) documents basedir in
    let after d :=
      mkWorld d (heap w) (calls w) (console w ++ fallback_warning env) in
    let made :=
      (fm, {| basedir := basedir; basepath := base;
              scriptableDir := documents; filestub := filestub |}) in
    fm_documentsDirectory fm = Returned documents ->
    CustomFileManager.constructor env basedir filestub w
    = if fm_isDirectory fm (disk w) base
      then (Returned made, after (disk w))
      else
        match fm_createDirectory fm base (disk w) with
        | (Returned _, d') => (Returned made, after d')
        | (Thrown e, d') => (Thrown e, after d')
        end.
Proof.
  intros D env basedir filestub w documents fm base after made Hdocuments.
  subst fm base after made.
  unfold CustomFileManager.constructor. unfold bind at 1.
  rewrite chooseFileManager_chooses.
  unfold bind, lift, isDirectory, createDirectory, ret. simpl.
  rewrite Hdocuments.
  destruct (fm_isDirectory (chosen env) (disk w) _); simpl; [reflexivity|].
  destruct (fm_createDirectory (chosen env) _ (disk w)) as [[[]|e] d'];
    reflexivity.
Qed.

(** A device without iCloud and without the base directory. *)
Lemma typed_constructor_prepares_base_directory_witness :
  CustomFileManager.constructor MemDevice.withoutICloud "data" "stub"
    (MemDevice.world [])
  = (Returned
       (FileManager_local MemDevice.withoutICloud,
        {| basedir := "data"; basepath := "/docs/data";
           scriptableDir := "/docs"; filestub := "stub" |}),
     mkWorld (∅, {["/docs/data"]} ∪ ∅) [] []
       [LogWarn (exn_text MemDevice.notSignedIn)]).
Proof.
  apply (typed_constructor_prepares_base_directory _ MemDevice.withoutICloud
           "data" "stub" (MemDevice.world []) "/docs").
  reflexivity.
Defined.

(** The constructor of [NewFileManager] falls back to the local file
    manager in the same way.  Without a base directory, or with the empty
    string as base directory, the accessor is rooted in the documents
    directory and the backend is left as it is; with any other base
    directory it behaves as the constructor of [CustomFileManager]
    does. *)
Theorem scoped_constructor_roots_accessor :
  forall (D : Type) (env : Scriptable D) (filestub : option string)
         (w : World D) (documents : string),
    let fm := chosen env in
    let after d :=
      mkWorld d (heap w) (calls w) (console w ++ fallback_warning env) in
    fm_documentsDirectory fm = Returned documents ->
    let rooted :=
      (Returned (fm, {| nfm_basepath := documents;
                        nfm_filestub := filestub |}),
       after (disk w)) in
    NewFileManager.constructor env None filestub w = rooted /\
    NewFileManager.constructor env (Some EmptyString) filestub w = rooted /\
    forall (c : ascii) (t : string),
      let base := fm_joinPath (fm_api fm) documents (String c t) in
      let made :=
        (fm, {| nfm_basepath := base; nfm_filestub := filestub |}) in
      NewFileManager.constructor env (Some (String c t)) filestub w
      = if fm_isDirectory fm (disk w) base
        then (Returned made, after (disk w))
        else
          match fm_createDirectory fm base (disk w) with
          | (Returned _, d') => (Returned made, after d')
          | (Thrown e, d') => (Thrown e, after d')
          end.
Proof.
  intros D env filestub w documents fm after Hdocuments rooted.
  subst fm after rooted.
  unfold NewFileManager.constructor.
  repeat split; try (intros c t base made; subst base made);
    unfold bind at 1; rewrite chooseFileManager_chooses;
    unfold bind, lift, isDirectory, createDirectory, ret; simpl;
    rewrite Hdocuments; try reflexivity.
  intros c t.
  destruct (fm_isDirectory (chosen env) (disk w) _); simpl; [reflexivity|].
  destruct (fm_createDirectory (chosen env) _ (disk w)) as [[[]|e] d'];
    reflexivity.
Qed.

(** A device with iCloud: the accessor without base directory. *)
Lemma scoped_constructor_roots_accessor_witness :
  NewFileManager.constructor MemDevice.withICloud (Some EmptyString) None
    (MemDevice.world [])
  = (Returned
       (chosen MemDevice.withICloud,
        {| nfm_basepath := "/icloud"; nfm_filestub := None |}),
     mkWorld (∅, list_to_set []) [] [] []).
Proof.
  apply (proj1 (proj2 (scoped_constructor_roots_accessor _
                         MemDevice.withICloud None (MemDevice.world [])
                         "/icloud" eq_refl))).
Defined.
